(** * The CV chat backend: two Express relays in front of a completion API

    The repository holds two variants of the backend.

    - [ServerA] is [src/server.js]: a CORS middleware with an origin
      allow-list, a plain-text health check on [GET /] and the relay
      [POST /chat] guarded by an optional shared secret; on success it
      forwards the upstream body unchanged.
    - [ServerB] is the second server file ([src/unnamed/part_001]): static
      files, [GET /] sending [index.html], and the relay [POST /api/chat]
      behind a request limiter; on success it answers [{ message: reply }].

    Everything outside the handlers is an input of the model: the process
    environment, the upstream API (an oracle from outbound requests to
    results), the file system, the clock, the body already parsed by
    [express.json] and the decisions of Express that rest on entity tags,
    modification times and the layout of the served directory.  Handlers run in a small state-and-exception monad whose
    state is the Express response under construction, the list of outbound
    calls made so far and the limiter's table. *)

From Stdlib Require Import ZArith QArith String Ascii List Bool Lia.
From stdpp Require Import base option gmap strings list fin_maps.
Import ListNotations.

Local Open Scope string_scope.
Local Open Scope Z_scope.
Local Set Warnings "-register-all".

(** ** JavaScript values that reach the handlers *)

Module JS.

(** A JSON document as the program holds it after parsing.  A number is
    the double that the parser produced, written as the rational it is
    equal to (a literal too large for a double has no counterpart here);
    the code never computes with numbers, it only tests them for
    truthiness and passes them on.  [JObj] lists the own properties of a
    parsed object in insertion order. *)
Inductive JSON : Type :=
| JNull
| JBool (b : bool)
| JNum (q : Q)
| JStr (s : string)
| JArr (xs : list JSON)
| JObj (fields : list (string * JSON)).

(** A value as the handlers see it: [None] is [undefined]. *)
Definition Value : Type := option JSON.

Fixpoint assoc (k : string) (fields : list (string * JSON)) : Value :=
  match fields with
  | [] => None
  | (k', v) :: rest => if (k =? k')%string then Some v else assoc k rest
  end.

(** [!!v] in JavaScript: [undefined], [null], [false], [0] and the empty
    string are falsy, everything else (empty arrays and objects too) is
    truthy. *)
Definition truthy (v : Value) : bool :=
  match v with
  | None => false
  | Some JNull => false
  | Some (JBool b) => b
  | Some (JNum q) => negb (Qnum q =? 0)
  | Some (JStr s) => negb (s =? "")%string
  | Some (JArr _) => true
  | Some (JObj _) => true
  end.

(** [v || d] where [d] is a JSON value. *)
Definition or_else (v : Value) (d : JSON) : JSON :=
  match v with
  | Some x => if truthy v then x else d
  | None => d
  end.

(** [x = d] in a destructuring pattern: the default applies to [undefined]
    only, [null] stays [null]. *)
Definition with_default (v : Value) (d : JSON) : JSON :=
  match v with
  | Some x => x
  | None => d
  end.

(** [v.k] for a value that is neither [null] nor [undefined], and a name [k]
    that no prototype defines (the handlers read [messages], [model],
    [temperature], [max_tokens], [error], [choices], [message] and
    [content]): only an object can hold it. *)
Definition prop (v : JSON) (k : string) : Value :=
  match v with
  | JObj fields => assoc k fields
  | _ => None
  end.

(** [v[0]] for a value that is neither [null] nor [undefined]: the first
    element of an array, the first character of a string, the property
    ["0"] of an object. *)
Definition index0 (v : JSON) : Value :=
  match v with
  | JArr xs => head xs
  | JStr (String c _) => Some (JStr (String c ""))
  | JObj fields => assoc "0" fields
  | _ => None
  end.

(** Optional chaining: [v?.k] and [v?.[0]] are [undefined] when [v] is
    [null] or [undefined]. *)
Definition opt_prop (v : Value) (k : string) : Value :=
  match v with
  | None | Some JNull => None
  | Some x => prop x k
  end.

Definition opt_index0 (v : Value) : Value :=
  match v with
  | None | Some JNull => None
  | Some x => index0 x
  end.

(** [Array.isArray(v)]. *)
Definition isArray (v : Value) : bool :=
  match v with
  | Some (JArr _) => true
  | _ => false
  end.

(** Truthiness of a string that may be [undefined] (an environment variable
    or a header). *)
Definition truthy_str (s : option string) : bool :=
  match s with
  | Some x => negb (x =? "")%string
  | None => false
  end.

(** [s || ""] for such a string. *)
Definition str_or_empty (s : option string) : string :=
  match s with
  | Some x => x
  | None => ""
  end.

Definition lower_ascii (c : ascii) : ascii :=
  let n := nat_of_ascii c in
  if ((65 <=? n) && (n <=? 90))%nat then ascii_of_nat (n + 32) else c.

Fixpoint toLowerCase (s : string) : string :=
  match s with
  | EmptyString => EmptyString
  | String c rest => String (lower_ascii c) (toLowerCase rest)
  end.

End JS.
Export JS.

(** ** Requests, responses and the outside world *)

(** The request after Express has parsed it: header names are in lower
    case (as Node stores them), [body] is what [express.json] left in
    [req.body], [ip] is the client address the limiter keys on. *)
Record Request : Type := mkRequest {
  method : string;
  path : string;
  headers : gmap string string;
  body : Value;
  ip : string
}.

(** [req.header(name)]: the lookup ignores the case of [name]. *)
Definition req_header (req : Request) (name : string) : option string :=
  headers req !! toLowerCase name.

(** What has been sent as the body of a response; [PErrorPage] is the
    page that Express's final handler writes for an error or an unknown
    route. *)
Inductive Payload : Type :=
| PJson (v : JSON)
| PText (s : string)
| PFile (content : string)
| PErrorPage
| PEmpty.

(** The Express response object: status (200 until set), the headers set
    with [res.header], the MIME type chosen by [res.type], [res.json] or
    [res.sendFile], and the payload once it has been sent. *)
Record Response : Type := mkResponse {
  statusCode : Z;
  resHeaders : gmap string string;
  contentType : option string;
  sent : option Payload
}.

(** An outbound call made with [fetch]. *)
Record FetchReq : Type := mkFetchReq {
  url : string;
  fMethod : string;
  fHeaders : list (string * string);
  fBody : JSON
}.

(** What [fetch] and then [r.json()] give: the call itself fails, or it
    yields a status and a body, [None] when the body does not parse as
    JSON. *)
Inductive FetchResult : Type :=
| NetworkError
| Reply (status : Z) (json : option JSON).

(** The world around a server.  [fs file] is what the file-sending code of
    Express finds at an absolute path: [None] when there is nothing it
    would send (no such file, a directory, a path it hides).  Three
    decisions of Express depend on data that is not in the model (entity
    tags, modification times, the layout of the served directory) and are
    inputs as well:
    - [revalidates inm ims cc text]: whether [res.send] of [text] finds
      the request fresh, given its [If-None-Match], [If-Modified-Since]
      and [Cache-Control] headers;
    - [conditional_send req content]: the status, type and payload with
      which a file is answered to a request that carries a precondition
      or a range, or the status of the client error it ends in;
    - [static_other req]: what [express.static] answers to a request for
      a path other than the root, [None] when it passes the request on. *)
Record World : Type := mkWorld {
  env : gmap string string;
  upstream : FetchReq -> FetchResult;
  fs : string -> option string;
  cwd : string;
  dirname : string;
  revalidates : option string -> option string -> option string -> string -> bool;
  conditional_send : Request -> string -> (Z * option string * Payload) + Z;
  static_other : Request -> option (Z * option string * Payload)
}.

(** How Express matches a route path (its defaults: case is ignored and
    one trailing slash is allowed, except on the root). *)
Definition route_matches (pattern path : string) : bool :=
  let p := toLowerCase path in
  (p =? pattern)%string || (negb (pattern =? "/")%string && (p =? pattern ++ "/")%string).

(** A route registered with [app.get] also answers HEAD. *)
Definition get_or_head (req : Request) : bool :=
  ((method req =? "GET") || (method req =? "HEAD"))%string.

(** ** The handler monad *)

Inductive Exn : Type :=
| TypeError
| FetchFailed
| SyntaxError.

Record State : Type := mkState {
  res : Response;
  calls : list FetchReq;
  quota : gmap string (nat * Z)
}.

Definition M (A : Type) : Type := State -> (Exn + A) * State.

Definition ret {A} (a : A) : M A := fun s => (inr a, s).

Definition bind {A B} (m : M A) (k : A -> M B) : M B :=
  fun s => match m s with
           | (inr a, s') => k a s'
           | (inl e, s') => (inl e, s')
           end.

Definition throw {A} (e : Exn) : M A := fun s => (inl e, s).

(** [try { m } catch (err) { h err }]: what [m] did to the state before it
    threw stays done. *)
Definition try_catch {A} (m : M A) (h : Exn -> M A) : M A :=
  fun s => match m s with
           | (inl e, s') => h e s'
           | r => r
           end.

Declare Scope js_scope.
Delimit Scope js_scope with js.
Notation "x <- m ;; k" := (bind m (fun x => k))
  (at level 100, m at next level, right associativity) : js_scope.
Notation "m ;; k" := (bind m (fun _ => k))
  (at level 100, right associativity) : js_scope.
Local Open Scope js_scope.

Definition modify_res (f : Response -> Response) : M unit :=
  fun s => (inr tt, mkState (f (res s)) (calls s) (quota s)).

(** [res.header(name, value)] *)
Definition res_header (name value : string) : M unit :=
  modify_res (fun r => mkResponse (statusCode r) (<[name := value]> (resHeaders r))
                                  (contentType r) (sent r)).

(** [res.status(code)] *)
Definition res_status (code : Z) : M unit :=
  modify_res (fun r => mkResponse code (resHeaders r) (contentType r) (sent r)).

(** [res.type(t)] *)
Definition res_type (t : string) : M unit :=
  modify_res (fun r => mkResponse (statusCode r) (resHeaders r) (Some t) (sent r)).

(** [res.send(text)]: the type set before is kept. *)
Definition res_send (text : string) : M unit :=
  modify_res (fun r => mkResponse (statusCode r) (resHeaders r) (contentType r)
                                  (Some (PText text))).

(** [res.json(v)] *)
Definition res_json (v : JSON) : M unit :=
  modify_res (fun r => mkResponse (statusCode r) (resHeaders r)
                                  (Some "application/json") (Some (PJson v))).

(** [res.end()] *)
Definition res_end : M unit :=
  modify_res (fun r => mkResponse (statusCode r) (resHeaders r) (contentType r)
                                  (Some PEmpty)).

(** [await fetch(url, options)]: the call is recorded, then the oracle
    answers; a network failure rejects the promise. *)
Definition fetch (w : World) (rq : FetchReq) : M FetchResult :=
  fun s =>
    let s' := mkState (res s) (calls s ++ [rq]) (quota s) in
    match upstream w rq with
    | NetworkError => (inl FetchFailed, s')
    | r => (inr r, s')
    end.

(** [r.status], [r.ok] and [await r.json()] of a fetch result. *)
Definition r_status (r : FetchResult) : Z :=
  match r with
  | Reply st _ => st
  | NetworkError => 0
  end.

Definition r_ok (r : FetchResult) : bool :=
  (200 <=? r_status r) && (r_status r <=? 299).

Definition r_json (r : FetchResult) : M JSON :=
  match r with
  | Reply _ (Some d) => ret d
  | _ => throw SyntaxError
  end.

(** [data.k] where [data] may be [null]: reading a property of [null]
    throws. *)
Definition member (data : JSON) (k : string) : M Value :=
  match data with
  | JNull => throw TypeError
  | _ => ret (prop data k)
  end.

Definition fresh_response : Response := mkResponse 200 ∅ None None.

(** Running a server on one request, from a given limiter table: the
    response, the outbound calls and the table afterwards. *)
Definition run (m : M unit) (table : gmap string (nat * Z))
  : Response * list FetchReq * gmap string (nat * Z) :=
  let s := snd (m (mkState fresh_response [] table)) in
  (res s, calls s, quota s).

(** Sending a payload as it is. *)
Definition res_write (p : Payload) : M unit :=
  modify_res (fun r => mkResponse (statusCode r) (resHeaders r) (contentType r) (Some p)).

(** Express's final handler: the status of the error with its page, no
    body for a HEAD. *)
Definition final_handler (req : Request) (code : Z) : M unit :=
  res_status code;; res_type "text/html";;
  if (method req =? "HEAD")%string then res_end else res_write PErrorPage.

(** Express's answer when no route matches. *)
Definition not_found (req : Request) : M unit := final_handler req 404.

(** [req.fresh] when [res.send] runs in a GET route whose status is still
    200: never without a validator in the request, otherwise as the world
    decides. *)
Definition is_fresh (w : World) (req : Request) (text : string) : bool :=
  get_or_head req
  && (truthy_str (headers req !! "if-modified-since")
      || truthy_str (headers req !! "if-none-match"))
  && revalidates w (headers req !! "if-none-match") (headers req !! "if-modified-since")
                   (headers req !! "cache-control") text.

(** [res.send(text)] as Express completes it: a fresh request is answered
    304 with neither type nor body, a HEAD gets the headers without the
    body. *)
Definition res_send_text (w : World) (req : Request) (text : string) : M unit :=
  if is_fresh w req text then
    modify_res (fun r => mkResponse 304 (resHeaders r) None (Some PEmpty))
  else if (method req =? "HEAD")%string then res_end
  else res_send text.

Definition completions_url : string := "https://api.openai.com/v1/chat/completions".

(** The outbound call both relays build. *)
Definition completion_request (key : string) (model messages temperature max_tokens : JSON)
  : FetchReq :=
  mkFetchReq completions_url "POST"
    [("Content-Type", "application/json"); ("Authorization", "Bearer " ++ key)]
    (JObj [("model", model); ("messages", messages);
           ("temperature", temperature); ("max_tokens", max_tokens)]).

(** The conversation a request carries: [messages] destructured from
    [req.body || {}]. *)
Definition conversation (req : Request) : Value :=
  prop (or_else (body req) (JObj [])) "messages".

(** [options.k] with its default, destructured from [req.body || {}]. *)
Definition option_of (req : Request) (k : string) (d : JSON) : JSON :=
  with_default (prop (or_else (body req) (JObj [])) k) d.

(** ** [src/server.js]: CORS allow-list, health check, [POST /chat] *)

Module ServerA.

Definition ALLOW_ORIGINS : list string :=
  [ "http://localhost:5500";
    "https://juliabaucher.github.io/lab2/";
    "https://your-custom-domain.example" ].

(** [list.includes(x)] on strings. *)
Definition includes (l : list string) (x : string) : bool :=
  existsb (String.eqb x) l.

(** The first [app.use]: the allow-origin header is set for a listed
    origin only; the three other headers always are; a preflight is
    answered here with 204, every other request goes on to [next]. *)
Definition cors (req : Request) (next : M unit) : M unit :=
  let origin := headers req !! "origin" in
  (if truthy_str origin && includes ALLOW_ORIGINS (str_or_empty origin)
   then res_header "Access-Control-Allow-Origin" (str_or_empty origin)
   else ret tt);;
  res_header "Vary" "Origin";;
  res_header "Access-Control-Allow-Headers" "Content-Type, X-Client-Token";;
  res_header "Access-Control-Allow-Methods" "OPTIONS, POST, GET";;
  if (method req =? "OPTIONS")%string then (res_status 204;; res_end) else next.

(** [process.env.CLIENT_TOKEN || ""] *)
Definition CLIENT_TOKEN (w : World) : string :=
  str_or_empty (env w !! "CLIENT_TOKEN").

(** [app.get("/")] *)
Definition health (w : World) (req : Request) : M unit :=
  res_type "text/plain";; res_send_text w req "OK: cv-chat-backend is running".

(** The part of [app.post("/chat")] after the token check.  Past the
    array check [messages] is defined, so [with_default messages JNull] is
    that array. *)
Definition chat_checked (w : World) (req : Request) : M unit :=
  let messages := conversation req in
  let model := option_of req "model" (JStr "gpt-4o-mini") in
  let temperature := option_of req "temperature" (JNum (3 # 10)) in
  let max_tokens := option_of req "max_tokens" (JNum (500 # 1)) in
  if negb (isArray messages) then
    res_status 400;; res_json (JObj [("error", JStr "messages must be an array")])
  else
    let OPENAI_API_KEY := env w !! "OPENAI_API_KEY" in
    if negb (truthy_str OPENAI_API_KEY) then
      res_status 500;;
      res_json (JObj [("error", JStr "OPENAI_API_KEY is not set on the server")])
    else
      r <- fetch w (completion_request (str_or_empty OPENAI_API_KEY) model
                      (with_default messages JNull) temperature max_tokens);;
      data <- r_json r;;
      if negb (r_ok r) then
        e <- member data "error";;
        res_status (r_status r);;
        res_json (JObj [("error", or_else (opt_prop e "message") (JStr "OpenAI error"))])
      else
        res_json data.

(** [req.header("X-Client-Token") || req.header("x-client-token") || ""] *)
Definition client_token (req : Request) : string :=
  str_or_empty
    (if truthy_str (req_header req "X-Client-Token")
     then req_header req "X-Client-Token"
     else if truthy_str (req_header req "x-client-token")
          then req_header req "x-client-token"
          else Some "").

(** [app.post("/chat")]: the whole body sits in [try], the [catch] answers
    500. *)
Definition chat (w : World) (req : Request) : M unit :=
  try_catch
    (if negb (CLIENT_TOKEN w =? "")%string then
       let t := client_token req in
       if negb (t =? CLIENT_TOKEN w)%string then
         res_status 401;; res_json (JObj [("error", JStr "Unauthorized")])
       else chat_checked w req
     else chat_checked w req)
    (fun _ => res_status 500;; res_json (JObj [("error", JStr "Server error")])).

(** The outbound call the handler builds from a request and the
    environment. *)
Definition chat_call (w : World) (req : Request) : FetchReq :=
  completion_request (str_or_empty (env w !! "OPENAI_API_KEY"))
    (option_of req "model" (JStr "gpt-4o-mini"))
    (with_default (conversation req) JNull)
    (option_of req "temperature" (JNum (3 # 10)))
    (option_of req "max_tokens" (JNum (500 # 1))).

(** The token check of [chat] lets a request through: no token is
    configured, or the header carries it. *)
Definition authorized (w : World) (req : Request) : bool :=
  (CLIENT_TOKEN w =? "")%string || (client_token req =? CLIENT_TOKEN w)%string.

(** Route dispatch, in registration order. *)
Definition routes (w : World) (req : Request) : M unit :=
  if get_or_head req && route_matches "/" (path req) then health w req
  else if (method req =? "POST")%string && route_matches "/chat" (path req) then chat w req
  else not_found req.

Definition app (w : World) (req : Request) : M unit :=
  cors req (routes w req).

End ServerA.

(** ** The second server: static files, [GET /], limited [POST /api/chat] *)

Module ServerB.

(** The options given to [rateLimit]. *)
Definition windowMs : Z := 24 * 60 * 60 * 1000.
Definition max : nat := 50.
Definition message : JSON :=
  JObj [("error", JStr "Too many requests, please try again tomorrow")].

(** Modelled from the spec: the middleware that [rateLimit] returns comes
    from the package express-rate-limit, which is imported and not part of
    the source files.  Following the spec's quota check: the counter of the
    client's key (its network address) is created on the first request and
    started afresh once its window has expired, expiry being looked at only
    when the key is next seen; a counter that has reached the ceiling
    answers 429 with the fixed message and does not go on; otherwise the
    counter is incremented and the request goes on to [next]. *)
Definition chatLimiter (now : Z) (req : Request) (next : M unit) : M unit :=
  fun s =>
    let '(hits, resetTime) :=
      match quota s !! ip req with
      | Some (h, r) => if now <? r then (h, r) else (0%nat, now + windowMs)
      | None => (0%nat, now + windowMs)
      end in
    if (max <=? hits)%nat then
      (res_status 429;; res_json message)
        (mkState (res s) (calls s) (<[ip req := (hits, resetTime)]> (quota s)))
    else
      next (mkState (res s) (calls s) (<[ip req := (S hits, resetTime)]> (quota s))).

(** [path.join(dir, name)] for a directory without a trailing slash. *)
Definition join (dir name : string) : string := dir ++ "/" ++ name.

(** What sending a file comes to when the request carries a precondition
    or a range: an answer, or a client error. *)
Definition unconditional (req : Request) : bool :=
  negb (truthy_str (headers req !! "if-match")
        || truthy_str (headers req !! "if-unmodified-since")
        || truthy_str (headers req !! "if-none-match")
        || truthy_str (headers req !! "if-modified-since")
        || truthy_str (headers req !! "range")).

(** Sending [index.html] once it was read: the whole file as text/html
    with the status left at 200 (a HEAD gets no body) when the request
    has neither precondition nor range; otherwise what the world says, a
    client error being handed to [on_error] with its status. *)
Definition send_index (w : World) (req : Request) (content : string)
    (on_error : Z -> M unit) : M unit :=
  if unconditional req then
    res_type "text/html";;
    if (method req =? "HEAD")%string then res_end else res_write (PFile content)
  else
    match conditional_send w req content with
    | inl (code, type, payload) =>
        modify_res (fun r => mkResponse code (resHeaders r) type (Some payload))
    | inr code => on_error code
    end.

(** [express.static(".")]: it looks at GET and HEAD only; the root path
    stands for [index.html] in the working directory; a file it does not
    find and a client error of the sending go on to [next]. *)
Definition static (w : World) (req : Request) (next : M unit) : M unit :=
  if get_or_head req then
    if (path req =? "/")%string then
      match fs w (join (cwd w) "index.html") with
      | Some content => send_index w req content (fun _ => next)
      | None => next
      end
    else
      match static_other w req with
      | Some (code, type, payload) =>
          modify_res (fun r => mkResponse code (resHeaders r) type (Some payload))
      | None => next
      end
  else next.

(** [app.get("/")]: [res.sendFile] of [index.html] next to the script; a
    file that is not there, or a client error of the sending, ends in
    Express's final handler. *)
Definition root (w : World) (req : Request) : M unit :=
  match fs w (join (dirname w) "index.html") with
  | Some content => send_index w req content (final_handler req)
  | None => not_found req
  end.

(** The first completion's text: [data.choices?.[0]?.message?.content]. *)
Definition first_content (data : JSON) : M Value :=
  choices <- member data "choices";;
  ret (opt_prop (opt_prop (opt_index0 choices) "message") "content").

(** The handler of [app.post("/api/chat")]. *)
Definition api_chat (w : World) (req : Request) : M unit :=
  try_catch
    (let messages := conversation req in
     let model := option_of req "model" (JStr "gpt-4o-mini") in
     let temperature := option_of req "temperature" (JNum (7 # 10)) in
     let max_tokens := option_of req "max_tokens" (JNum (800 # 1)) in
     if negb (isArray messages) then
       res_status 400;; res_json (JObj [("error", JStr "messages must be an array")])
     else
       let OPENAI_API_KEY := env w !! "OPENAI_API_KEY" in
       if negb (truthy_str OPENAI_API_KEY) then
         res_status 500;;
         res_json (JObj [("error", JStr "OPENAI_API_KEY is not set on the server")])
       else
         response <- fetch w (completion_request (str_or_empty OPENAI_API_KEY) model
                                (with_default messages JNull) temperature max_tokens);;
         data <- r_json response;;
         if negb (r_ok response) then
           e <- member data "error";;
           res_status (r_status response);;
           res_json (JObj [("error", or_else (opt_prop e "message")
                                             (JStr "OpenAI API error"))])
         else
           content <- first_content data;;
           let reply := or_else content (JStr "No response from AI") in
           res_json (JObj [("message", reply)]))
    (fun _ => res_status 500;;
              res_json (JObj [("error", JStr "Server error. Please try again.")])).

(** The outbound call the handler builds from a request and the
    environment. *)
Definition api_chat_call (w : World) (req : Request) : FetchReq :=
  completion_request (str_or_empty (env w !! "OPENAI_API_KEY"))
    (option_of req "model" (JStr "gpt-4o-mini"))
    (with_default (conversation req) JNull)
    (option_of req "temperature" (JNum (7 # 10)))
    (option_of req "max_tokens" (JNum (800 # 1))).

(** Route dispatch after [express.static], in registration order. *)
Definition routes (w : World) (now : Z) (req : Request) : M unit :=
  if get_or_head req && route_matches "/" (path req) then root w req
  else if (method req =? "POST")%string && route_matches "/api/chat" (path req)
       then chatLimiter now req (api_chat w req)
       else not_found req.

Definition app (w : World) (now : Z) (req : Request) : M unit :=
  static w req (routes w now req).

End ServerB.

(** Serving a sequence of requests, each with its arrival time, threading
    the limiter's table from one to the next. *)
Fixpoint serve (srv : Z -> Request -> M unit) (table : gmap string (nat * Z))
    (reqs : list (Z * Request))
  : list (Response * list FetchReq) * gmap string (nat * Z) :=
  match reqs with
  | [] => ([], table)
  | (now, req) :: rest =>
      let '(r, cs, table') := run (srv now req) table in
      let '(out, final) := serve srv table' rest in
      ((r, cs) :: out, final)
  end.

(** ** Closed forms, sample inputs and the vocabulary of the statements *)

(** What an answering branch does to the response: [res.status(code)] when
    the branch sets one, then [res.json(v)]. *)
Definition answer (code : option Z) (v : JSON) (r : Response) : Response :=
  mkResponse (default (statusCode r) code) (resHeaders r)
             (Some "application/json") (Some (PJson v)).

Definition error_body (text : string) : JSON := JObj [("error", JStr text)].

(** [data.choices?.[0]?.message?.content] for a body that is not [null]. *)
Definition completion (data : JSON) : Value :=
  opt_prop (opt_prop (opt_index0 (prop data "choices")) "message") "content".

(** [data.error?.message] for a body that is not [null]. *)
Definition upstream_message (data : JSON) : Value :=
  opt_prop (prop data "error") "message".

(** The closed form of each handler is proved equal to the handler below
    ([api_chat_eval], [chat_eval], [appA_eval]). *)

Module ClosedB.

Definition api_chat_caught : option Z * JSON :=
  (Some 500, error_body "Server error. Please try again.").

(** Status set, body sent and calls made by [ServerB.api_chat]. *)
Definition api_chat_result (w : World) (req : Request)
  : option Z * JSON * list FetchReq :=
  if negb (isArray (conversation req)) then
    (Some 400, error_body "messages must be an array", [])
  else if negb (truthy_str (env w !! "OPENAI_API_KEY")) then
    (Some 500, error_body "OPENAI_API_KEY is not set on the server", [])
  else
    match upstream w (ServerB.api_chat_call w req) with
    | NetworkError | Reply _ None | Reply _ (Some JNull) =>
        (api_chat_caught, [ServerB.api_chat_call w req])
    | Reply st (Some data) =>
        if (200 <=? st) && (st <=? 299) then
          (None, JObj [("message", or_else (completion data) (JStr "No response from AI"))],
           [ServerB.api_chat_call w req])
        else
          (Some st, JObj [("error", or_else (upstream_message data) (JStr "OpenAI API error"))],
           [ServerB.api_chat_call w req])
    end.

End ClosedB.

Module ClosedA.

Definition chat_caught : option Z * JSON := (Some 500, error_body "Server error").

(** Status set, body sent and calls made by [ServerA.chat] once the token
    check is behind. *)
Definition chat_checked_result (w : World) (req : Request)
  : option Z * JSON * list FetchReq :=
  if negb (isArray (conversation req)) then
    (Some 400, error_body "messages must be an array", [])
  else if negb (truthy_str (env w !! "OPENAI_API_KEY")) then
    (Some 500, error_body "OPENAI_API_KEY is not set on the server", [])
  else
    match upstream w (ServerA.chat_call w req) with
    | NetworkError | Reply _ None => (chat_caught, [ServerA.chat_call w req])
    | Reply st (Some data) =>
        if (200 <=? st) && (st <=? 299) then (None, data, [ServerA.chat_call w req])
        else
          match data with
          | JNull => (chat_caught, [ServerA.chat_call w req])
          | _ => (Some st,
                  JObj [("error", or_else (upstream_message data) (JStr "OpenAI error"))],
                  [ServerA.chat_call w req])
          end
    end.

(** Status set, body sent and calls made by [ServerA.chat]. *)
Definition chat_result (w : World) (req : Request) : option Z * JSON * list FetchReq :=
  if ServerA.authorized w req then chat_checked_result w req
  else (Some 401, error_body "Unauthorized", []).

End ClosedA.

Definition json_response (code : Z) (v : JSON) : Response :=
  mkResponse code ∅ (Some "application/json") (Some (PJson v)).

(** A value that is a string or falsy. *)
Definition text_or_falsy (v : Value) : Prop :=
  (exists s, v = Some (JStr s)) \/ truthy v = false.

(** Sample inputs for the concrete instances. *)

Module Sample.

(** The body of a successful completion whose first choice has content [c]. *)
Definition chat_completion (c : JSON) : JSON :=
  JObj [("id", JStr "chatcmpl-1");
        ("choices", JArr [JObj [("index", JNum (0 # 1));
                                ("message", JObj [("role", JStr "assistant");
                                                  ("content", c)])]])].

Definition replies (st : Z) (json : option JSON) : FetchReq -> FetchResult :=
  fun _ => Reply st json.

Definition world (vars : gmap string string) (up : FetchReq -> FetchResult) : World :=
  mkWorld vars up (fun _ => None) "/home/runner/app" "/home/runner/app"
          (fun _ _ _ _ => false) (fun _ _ => inl (304, None, PEmpty)) (fun _ => None).

Definition with_key : gmap string string := {[ "OPENAI_API_KEY" := "sk-test" ]}.

Definition only_token : gmap string string := {[ "CLIENT_TOKEN" := "s3cret" ]}.

Definition with_key_and_token : gmap string string :=
  <[ "CLIENT_TOKEN" := "s3cret" ]> with_key.

Definition two_turns : JSON :=
  JArr [JObj [("role", JStr "system"); ("content", JStr "You answer about the CV.")];
        JObj [("role", JStr "user"); ("content", JStr "Where did she work?")]].

Definition post (p : string) (hs : gmap string string) (b : Value) : Request :=
  mkRequest "POST" p hs b "203.0.113.7".

Definition get (p : string) (hs : gmap string string) : Request :=
  mkRequest "GET" p hs None "203.0.113.7".

Definition valid_body : Value := Some (JObj [("messages", two_turns)]).

End Sample.

Module SampleFailure.

Definition quota_body : JSON :=
  JObj [("error", JObj [("message", JStr "You exceeded your current quota");
                        ("type", JStr "insufficient_quota")])].

Definition failing : World :=
  Sample.world Sample.with_key (Sample.replies 429 (Some quota_body)).

Definition question : Request := Sample.post "/api/chat" ∅ Sample.valid_body.

End SampleFailure.

(** What a route ends up doing to the response: an optional status, the
    MIME type it sets or clears ([None]: left as it is), the payload sent
    and the outbound calls made. *)
Record Effect : Type := mkEffect {
  eStatus : option Z;
  eType : option (option string);
  ePayload : Payload;
  eCalls : list FetchReq
}.

Definition apply_effect (e : Effect) (s : State) : State :=
  mkState
    (mkResponse (default (statusCode (res s)) (eStatus e))
                (resHeaders (res s))
                (match eType e with Some t => t | None => contentType (res s) end)
                (Some (ePayload e)))
    (calls s ++ eCalls e) (quota s).

Definition json_effect (r : option Z * JSON * list FetchReq) : Effect :=
  mkEffect (fst (fst r)) (Some (Some "application/json")) (PJson (snd (fst r))) (snd r).

Definition not_found_effect (req : Request) : Effect :=
  mkEffect (Some 404) (Some (Some "text/html"))
           (if (method req =? "HEAD")%string then PEmpty else PErrorPage) [].

(** What [res.type("text/plain")] and then [res.send(text)] come to. *)
Definition text_effect (w : World) (req : Request) (text : string) : Effect :=
  if is_fresh w req text then mkEffect (Some 304) (Some None) PEmpty []
  else mkEffect None (Some (Some "text/plain"))
                (if (method req =? "HEAD")%string then PEmpty else PText text) [].

Definition set_headers (hs : gmap string string) (s : State) : State :=
  mkState (mkResponse (statusCode (res s)) hs (contentType (res s)) (sent (res s)))
          (calls s) (quota s).

Module AppA.

Definition allowed (req : Request) : bool :=
  truthy_str (headers req !! "origin")
  && ServerA.includes ServerA.ALLOW_ORIGINS (str_or_empty (headers req !! "origin")).

(** The headers [ServerA.cors] leaves on the response. *)
Definition cors_headers (req : Request) (hs : gmap string string) : gmap string string :=
  <["Access-Control-Allow-Methods" := "OPTIONS, POST, GET"]>
    (<["Access-Control-Allow-Headers" := "Content-Type, X-Client-Token"]>
       (<["Vary" := "Origin"]>
          (if allowed req
           then <["Access-Control-Allow-Origin" := str_or_empty (headers req !! "origin")]> hs
           else hs))).

Definition effect (w : World) (req : Request) : Effect :=
  if (method req =? "OPTIONS")%string then mkEffect (Some 204) None PEmpty []
  else if get_or_head req && route_matches "/" (path req) then
    text_effect w req "OK: cv-chat-backend is running"
  else if (method req =? "POST")%string && route_matches "/chat" (path req) then
    json_effect (ClosedA.chat_result w req)
  else not_found_effect req.

End AppA.

(** A request with its headers replaced. *)
Definition with_headers (req : Request) (hs : gmap string string) : Request :=
  mkRequest (method req) (path req) hs (body req) (ip req).

Module SampleSite.

Definition page : string := "<!doctype html><title>Julia Baucher</title>".

Definition site : World :=
  mkWorld Sample.with_key (Sample.replies 200 None)
          (fun file => if (file =? "/home/runner/app/index.html")%string
                       then Some page else None)
          "/home/runner" "/home/runner/app"
          (fun _ _ _ _ => false) (fun _ _ => inl (304, None, PEmpty)) (fun _ => None).

End SampleSite.

(** The vocabulary of the quota statements. *)

Module Quota.

(** A request for the limited route. *)
Definition is_chat (req : Request) : bool :=
  (method req =? "POST")%string && route_matches "/api/chat" (path req).

(** A request for the limited route from client [k]. *)
Definition chat_from (k : string) (req : Request) : bool :=
  is_chat req && (ip req =? k)%string.

(** The counter and window end that the limiter works with for key [k] at
    time [now]. *)
Definition current (table : gmap string (nat * Z)) (now : Z) (k : string) : nat * Z :=
  match table !! k with
  | Some (h, r) => if now <? r then (h, r) else (0%nat, now + ServerB.windowMs)
  | None => (0%nat, now + ServerB.windowMs)
  end.

(** How many requests of a run the limiter counts for [k]. *)
Definition counted (k : string) (reqs : list (Z * Request)) : nat :=
  length (filter (fun tr => chat_from k (snd tr) = true) reqs).

(** Every request of client [k] for the limited route arrives before
    [deadline]. *)
Definition before (k : string) (deadline : Z) (reqs : list (Z * Request)) : Prop :=
  Forall (fun tr => chat_from k (snd tr) = true -> fst tr < deadline) reqs.

(** The answer the handler itself gives to a request. *)
Definition relayed (w : World) (req : Request) : Response * list FetchReq :=
  fst (run (ServerB.api_chat w req) ∅).

(** In a run, the requests of client [k] for the limited route all got the
    handler's own answer. *)
Definition all_relayed (w : World) (k : string)
    (reqs : list (Z * Request)) (out : list (Response * list FetchReq)) : Prop :=
  Forall2 (fun tr o => chat_from k (snd tr) = true -> o = relayed w (snd tr)) reqs out.

End Quota.

Module SampleRun.

Definition answering : World :=
  Sample.world Sample.with_key
    (Sample.replies 200 (Some (Sample.chat_completion (JStr "At Acme.")))).

Definition client : string := "203.0.113.7".

Definition ask : Request := Sample.post "/api/chat" ∅ Sample.valid_body.

Definition hour : Z := 60 * 60 * 1000.

(** 49 more requests of the same client, one hour after the first. *)
Definition more : list (Z * Request) := replicate 49 (hour, ask).

(** 51 requests to [/chat] of server.js. *)
Definition burst : list (Z * Request) :=
  replicate 51 (hour, Sample.post "/chat" ∅ Sample.valid_body).

End SampleRun.

(** The same deployment with no client token configured. *)
Definition without_token (w : World) : World :=
  mkWorld (delete "CLIENT_TOKEN" (env w)) (upstream w) (fs w) (cwd w) (dirname w)
          (revalidates w) (conditional_send w) (static_other w).

(** The same deployment with another upstream. *)
Definition with_upstream (w : World) (up : FetchReq -> FetchResult) : World :=
  mkWorld (env w) up (fs w) (cwd w) (dirname w)
          (revalidates w) (conditional_send w) (static_other w).

(** A body is well formed for the relays when it is an object whose
    [messages] property is an array. *)
Definition has_messages (req : Request) : Prop :=
  exists fields xs, body req = Some (JObj fields) /\ assoc "messages" fields = Some (JArr xs).

(** The headers of every outbound call: the JSON content type and the
    bearer credential. *)
Definition bearer_headers (key : string) : list (string * string) :=
  [("Content-Type", "application/json"); ("Authorization", "Bearer " ++ key)].

(** An outbound call relays the conversation of a request: it is a POST to
    the completions URL with the server's own key as bearer credential
    and the request's [messages] array as its [messages]. *)
Definition relays_conversation (w : World) (req : Request) (rq : FetchReq) : Prop :=
  exists key xs,
    env w !! "OPENAI_API_KEY" = Some key /\ key <> ""
    /\ conversation req = Some (JArr xs)
    /\ url rq = "https://api.openai.com/v1/chat/completions"
    /\ fMethod rq = "POST"
    /\ fHeaders rq = bearer_headers key
    /\ prop (fBody rq) "messages" = Some (JArr xs).

Module SampleExtra.

Definition token_world : World :=
  Sample.world Sample.with_key_and_token
    (Sample.replies 200 (Some (Sample.chat_completion (JStr "At Acme.")))).

Definition with_token : Request :=
  Sample.post "/chat" {[ "x-client-token" := "s3cret" ]} Sample.valid_body.

Definition preflight : Request :=
  mkRequest "OPTIONS" "/chat" {[ "origin" := "http://localhost:5500" ]} None "203.0.113.7".

Definition open_world : World :=
  Sample.world Sample.with_key
    (Sample.replies 200 (Some (Sample.chat_completion (JStr "At Acme.")))).

Definition bare : Request := Sample.post "/chat" ∅ Sample.valid_body.

Definition empty_conversation : Request :=
  Sample.post "/api/chat" ∅ (Some (JObj [("messages", JArr [])])).

Definition first_choice : JSON := JObj [("message", JObj [("content", JStr "one")])].

Definition two_choices : JSON :=
  JObj [("choices",
         JArr [first_choice; JObj [("message", JObj [("content", JStr "two")])]])].

Definition one_choice : JSON :=
  JObj [("id", JStr "chatcmpl-2"); ("choices", JArr [first_choice])].

End SampleExtra.

(** ** Properties *)

(** *** The handlers compute their closed forms *)

Lemma api_chat_eval (w : World) (req : Request) (s : State) :
  ServerB.api_chat w req s =
  (inr tt,
   mkState (answer (fst (fst (ClosedB.api_chat_result w req)))
                   (snd (fst (ClosedB.api_chat_result w req))) (res s))
           (calls s ++ snd (ClosedB.api_chat_result w req)) (quota s)).
Proof.
  unfold ServerB.api_chat, ClosedB.api_chat_result, try_catch.
  destruct (isArray (conversation req)); simpl.
  2:{ destruct s as [[] ? ?]; cbn. by rewrite app_nil_r. }
  destruct (truthy_str (env w !! "OPENAI_API_KEY")); simpl.
  2:{ destruct s as [[] ? ?]; cbn. by rewrite app_nil_r. }
  unfold bind at 1, fetch. fold (ServerB.api_chat_call w req).
  destruct (upstream w (ServerB.api_chat_call w req)) as [|st [data|]]; simpl.
  - destruct s as [[] ? ?]; reflexivity.
  - unfold r_ok; simpl.
    destruct data; destruct ((200 <=? st) && (st <=? 299)); destruct s as [[] ? ?]; reflexivity.
  - destruct s as [[] ? ?]; reflexivity.
Qed.

Lemma chat_eval (w : World) (req : Request) (s : State) :
  ServerA.chat w req s =
  (inr tt,
   mkState (answer (fst (fst (ClosedA.chat_result w req)))
                   (snd (fst (ClosedA.chat_result w req))) (res s))
           (calls s ++ snd (ClosedA.chat_result w req)) (quota s)).
Proof.
  assert (Hchecked :
    try_catch (ServerA.chat_checked w req)
      (fun _ => res_status 500;; res_json (JObj [("error", JStr "Server error")])) s =
    (inr tt,
     mkState (answer (fst (fst (ClosedA.chat_checked_result w req)))
                     (snd (fst (ClosedA.chat_checked_result w req))) (res s))
             (calls s ++ snd (ClosedA.chat_checked_result w req)) (quota s))).
  { unfold ServerA.chat_checked, ClosedA.chat_checked_result, try_catch.
    destruct (isArray (conversation req)); simpl.
    2:{ cbn. by rewrite app_nil_r. }
    destruct (truthy_str (env w !! "OPENAI_API_KEY")); simpl.
    2:{ cbn. by rewrite app_nil_r. }
    unfold bind at 1, fetch. fold (ServerA.chat_call w req).
    destruct (upstream w (ServerA.chat_call w req)) as [|st [data|]]; simpl; try reflexivity.
    unfold r_ok; simpl.
    destruct data; destruct ((200 <=? st) && (st <=? 299)); reflexivity. }
  unfold ServerA.chat, ClosedA.chat_result, ServerA.authorized.
  destruct (ServerA.CLIENT_TOKEN w =? "")%string; simpl; [exact Hchecked|].
  destruct (ServerA.client_token req =? ServerA.CLIENT_TOKEN w)%string; simpl;
    [exact Hchecked|].
  unfold try_catch. cbn. by rewrite app_nil_r.
Qed.

Lemma run_api_chat (w : World) (req : Request) (table : gmap string (nat * Z)) :
  run (ServerB.api_chat w req) table =
  (answer (fst (fst (ClosedB.api_chat_result w req)))
          (snd (fst (ClosedB.api_chat_result w req))) fresh_response,
   snd (ClosedB.api_chat_result w req), table).
Proof. unfold run. by rewrite api_chat_eval. Qed.

Lemma run_chat (w : World) (req : Request) (table : gmap string (nat * Z)) :
  run (ServerA.chat w req) table =
  (answer (fst (fst (ClosedA.chat_result w req)))
          (snd (fst (ClosedA.chat_result w req))) fresh_response,
   snd (ClosedA.chat_result w req), table).
Proof. unfold run. by rewrite chat_eval. Qed.

Lemma ok_true (st : Z) : 200 <= st <= 299 -> (200 <=? st) && (st <=? 299) = true.
Proof. intros [H1 H2]. apply andb_true_iff. split; by apply Z.leb_le. Qed.

Lemma ok_false (st : Z) : ~ 200 <= st <= 299 -> (200 <=? st) && (st <=? 299) = false.
Proof.
  intros H. apply andb_false_iff.
  destruct (Z.leb_spec 200 st); [|by left].
  destruct (Z.leb_spec st 299); [|by right]. lia.
Qed.

Lemma or_else_falsy (v : Value) (d : JSON) : truthy v = false -> or_else v d = d.
Proof. intros H. destruct v as [x|]; [|done]. unfold or_else. by rewrite H. Qed.

Lemma or_else_text (v : Value) (d : string) :
  text_or_falsy v -> d <> "" -> exists s, or_else v (JStr d) = JStr s /\ s <> "".
Proof.
  intros [[s ->]|H] Hd.
  - unfold or_else, truthy. destruct (String.eqb_spec s ""); simpl; eauto.
  - rewrite or_else_falsy; eauto.
Qed.

(** *** What the relays answer *)

(** C1, as amended: in the [/api/chat] relay, when the conversation is an
    array, the key is set and the upstream answers 2xx with a non-empty
    string as first completion, the response is 200 with the body
    [{ message: text }], that exact string, after exactly one outbound
    call. *)
Theorem C1_api_chat_returns_completion
    (w : World) (req : Request) (table : gmap string (nat * Z))
    (st : Z) (data : JSON) (text : string) :
  isArray (conversation req) = true ->
  truthy_str (env w !! "OPENAI_API_KEY") = true ->
  upstream w (ServerB.api_chat_call w req) = Reply st (Some data) ->
  200 <= st <= 299 ->
  completion data = Some (JStr text) ->
  text <> "" ->
  run (ServerB.api_chat w req) table =
  (json_response 200 (JObj [("message", JStr text)]), [ServerB.api_chat_call w req], table).
Proof.
  intros Harr Hkey Hup Hst Hc Htext.
  rewrite run_api_chat. unfold ClosedB.api_chat_result.
  rewrite Harr, Hkey, Hup; simpl.
  rewrite (ok_true _ Hst), Hc.
  assert (Hor : or_else (Some (JStr text)) (JStr "No response from AI") = JStr text).
  { unfold or_else, truthy. by destruct (String.eqb_spec text ""). }
  rewrite Hor.
  destruct data; try reflexivity. discriminate Hc.
Qed.

(** C1 at a sample input. *)
Lemma C1_witness :
  run (ServerB.api_chat (Sample.world Sample.with_key
                           (Sample.replies 200 (Some (Sample.chat_completion (JStr "At Acme.")))))
                        (Sample.post "/api/chat" ∅ Sample.valid_body)) ∅ =
  (json_response 200 (JObj [("message", JStr "At Acme.")]),
   [ServerB.api_chat_call (Sample.world Sample.with_key
                        (Sample.replies 200 (Some (Sample.chat_completion (JStr "At Acme.")))))
                     (Sample.post "/api/chat" ∅ Sample.valid_body)], ∅).
Proof.
  apply (C1_api_chat_returns_completion _ _ ∅ 200
           (Sample.chat_completion (JStr "At Acme.")) "At Acme.");
    [reflexivity | reflexivity | reflexivity | lia | reflexivity | discriminate].
Defined.

(** C1 fails as stated: an empty completion string comes back as the
    placeholder, and the [/chat] relay of server.js answers with the whole
    upstream body, not with a [message] field. *)
Lemma C1_counterexample :
  sent (fst (fst (run (ServerB.api_chat
                         (Sample.world Sample.with_key
                            (Sample.replies 200 (Some (Sample.chat_completion (JStr "")))))
                         (Sample.post "/api/chat" ∅ Sample.valid_body)) ∅))) =
    Some (PJson (JObj [("message", JStr "No response from AI")]))
  /\ sent (fst (fst (run (ServerA.chat
                         (Sample.world Sample.with_key
                            (Sample.replies 200 (Some (Sample.chat_completion (JStr "At Acme.")))))
                         (Sample.post "/chat" ∅ Sample.valid_body)) ∅))) =
    Some (PJson (Sample.chat_completion (JStr "At Acme.")))
  /\ Sample.chat_completion (JStr "At Acme.") <> JObj [("message", JStr "At Acme.")].
Proof. split; [|split]; [vm_compute; reflexivity .. | discriminate]. Qed.

(** C4, as amended: in the [/api/chat] relay, when the upstream answers 2xx
    with a JSON body other than [null] whose first completion has no
    content (or a falsy one), the response is 200 with the body
    [{ message: "No response from AI" }]. *)
Theorem C4_api_chat_placeholder
    (w : World) (req : Request) (table : gmap string (nat * Z)) (st : Z) (data : JSON) :
  isArray (conversation req) = true ->
  truthy_str (env w !! "OPENAI_API_KEY") = true ->
  upstream w (ServerB.api_chat_call w req) = Reply st (Some data) ->
  200 <= st <= 299 ->
  data <> JNull ->
  truthy (completion data) = false ->
  run (ServerB.api_chat w req) table =
  (json_response 200 (JObj [("message", JStr "No response from AI")]),
   [ServerB.api_chat_call w req], table).
Proof.
  intros Harr Hkey Hup Hst Hnull Hc.
  rewrite run_api_chat. unfold ClosedB.api_chat_result.
  rewrite Harr, Hkey, Hup; simpl.
  rewrite (ok_true _ Hst), (or_else_falsy _ _ Hc).
  by destruct data.
Qed.

(** C4 at a sample input. *)
Lemma C4_witness :
  run (ServerB.api_chat (Sample.world Sample.with_key
                           (Sample.replies 200 (Some (JObj [("choices", JArr [])]))))
                        (Sample.post "/api/chat" ∅ Sample.valid_body)) ∅ =
  (json_response 200 (JObj [("message", JStr "No response from AI")]),
   [ServerB.api_chat_call (Sample.world Sample.with_key
                        (Sample.replies 200 (Some (JObj [("choices", JArr [])]))))
                     (Sample.post "/api/chat" ∅ Sample.valid_body)], ∅).
Proof.
  apply (C4_api_chat_placeholder _ _ ∅ 200 (JObj [("choices", JArr [])]));
    [reflexivity | reflexivity | reflexivity | lia | discriminate | reflexivity].
Defined.

(** C4 fails as stated: the [/chat] relay of server.js forwards a body
    without completion text as it is, with no [message] field and no
    placeholder; and [/api/chat] answers 500 when the upstream body is
    [null]. *)
Lemma C4_counterexample :
  fst (fst (run (ServerA.chat (Sample.world Sample.with_key
                                 (Sample.replies 200 (Some (JObj [("choices", JArr [])]))))
                              (Sample.post "/chat" ∅ Sample.valid_body)) ∅)) =
    json_response 200 (JObj [("choices", JArr [])])
  /\ fst (fst (run (ServerB.api_chat (Sample.world Sample.with_key
                                        (Sample.replies 200 (Some JNull)))
                                     (Sample.post "/api/chat" ∅ Sample.valid_body)) ∅)) =
    json_response 500 (error_body "Server error. Please try again.").
Proof. split; vm_compute; reflexivity. Qed.

(** C5, as amended: for a request whose body has no array under
    [messages], neither relay calls the upstream; the [/api/chat] handler
    answers 400 "messages must be an array", and so does [/chat] unless its
    token check has already answered 401. *)
Theorem C5_no_array_is_400
    (w : World) (req : Request) (table : gmap string (nat * Z)) :
  isArray (conversation req) = false ->
  run (ServerB.api_chat w req) table =
    (json_response 400 (error_body "messages must be an array"), [], table)
  /\ snd (fst (run (ServerA.chat w req) table)) = []
  /\ (ServerA.authorized w req = true ->
      run (ServerA.chat w req) table =
        (json_response 400 (error_body "messages must be an array"), [], table)).
Proof.
  intros Harr. split; [|split].
  - rewrite run_api_chat. unfold ClosedB.api_chat_result. by rewrite Harr.
  - rewrite run_chat. unfold ClosedA.chat_result, ClosedA.chat_checked_result. rewrite Harr.
    by destruct (ServerA.authorized w req).
  - intros Hauth. rewrite run_chat. unfold ClosedA.chat_result, ClosedA.chat_checked_result.
    by rewrite Hauth, Harr.
Qed.

(** C5 at a sample input. *)
Lemma C5_witness :
  run (ServerB.api_chat (Sample.world Sample.with_key (Sample.replies 200 None))
         (Sample.post "/api/chat" ∅ (Some (JObj [("messages", JStr "hi")])))) ∅ =
    (json_response 400 (error_body "messages must be an array"), [], ∅)
  /\ snd (fst (run (ServerA.chat (Sample.world Sample.with_key (Sample.replies 200 None))
         (Sample.post "/api/chat" ∅ (Some (JObj [("messages", JStr "hi")])))) ∅)) = []
  /\ (ServerA.authorized (Sample.world Sample.with_key (Sample.replies 200 None))
         (Sample.post "/api/chat" ∅ (Some (JObj [("messages", JStr "hi")]))) = true ->
      run (ServerA.chat (Sample.world Sample.with_key (Sample.replies 200 None))
         (Sample.post "/api/chat" ∅ (Some (JObj [("messages", JStr "hi")])))) ∅ =
        (json_response 400 (error_body "messages must be an array"), [], ∅)).
Proof.
  apply (C5_no_array_is_400 (Sample.world Sample.with_key (Sample.replies 200 None))
           (Sample.post "/api/chat" ∅ (Some (JObj [("messages", JStr "hi")]))) ∅).
  reflexivity.
Defined.

(** C5 fails as stated: with a token configured and no token header, a
    body without [messages] is answered 401 by [/chat], not 400. *)
Lemma C5_counterexample :
  isArray (conversation (Sample.post "/chat" ∅ (Some (JObj [])))) = false
  /\ fst (fst (run (ServerA.chat (Sample.world Sample.with_key_and_token (Sample.replies 200 None))
                      (Sample.post "/chat" ∅ (Some (JObj [])))) ∅)) =
     json_response 401 (error_body "Unauthorized").
Proof. split; vm_compute; reflexivity. Qed.

(** C6, as amended: for a request that reaches the upstream (array
    conversation, key set, token check passed), (1) when the upstream
    answers a status outside 200..299 with a JSON body other than [null],
    the relay answers that same status with [error] set to the upstream's
    [error.message] when that is truthy and to a fixed text otherwise, so
    [error] is a non-empty string whenever the upstream's message is a
    string or falsy; (2) when the call itself fails, or the body of the
    answer is not JSON, the relay answers 500 with a fixed non-empty
    [error], whatever status the upstream sent. *)
Theorem C6_upstream_failure
    (w : World) (req : Request) (table : gmap string (nat * Z)) :
  isArray (conversation req) = true ->
  truthy_str (env w !! "OPENAI_API_KEY") = true ->
  (forall st data,
      upstream w (ServerB.api_chat_call w req) = Reply st (Some data) ->
      ~ 200 <= st <= 299 -> data <> JNull ->
      run (ServerB.api_chat w req) table =
        (json_response st
           (JObj [("error", or_else (upstream_message data) (JStr "OpenAI API error"))]),
         [ServerB.api_chat_call w req], table)
      /\ (text_or_falsy (upstream_message data) ->
          exists s, or_else (upstream_message data) (JStr "OpenAI API error") = JStr s
                    /\ s <> ""))
  /\ (upstream w (ServerB.api_chat_call w req) = NetworkError
      \/ (exists st, upstream w (ServerB.api_chat_call w req) = Reply st None) ->
      run (ServerB.api_chat w req) table =
        (json_response 500 (error_body "Server error. Please try again."),
         [ServerB.api_chat_call w req], table))
  /\ (ServerA.authorized w req = true ->
      (forall st data,
          upstream w (ServerA.chat_call w req) = Reply st (Some data) ->
          ~ 200 <= st <= 299 -> data <> JNull ->
          run (ServerA.chat w req) table =
            (json_response st
               (JObj [("error", or_else (upstream_message data) (JStr "OpenAI error"))]),
             [ServerA.chat_call w req], table)
          /\ (text_or_falsy (upstream_message data) ->
              exists s, or_else (upstream_message data) (JStr "OpenAI error") = JStr s
                        /\ s <> ""))
      /\ (upstream w (ServerA.chat_call w req) = NetworkError
          \/ (exists st, upstream w (ServerA.chat_call w req) = Reply st None) ->
          run (ServerA.chat w req) table =
            (json_response 500 (error_body "Server error"),
             [ServerA.chat_call w req], table))).
Proof.
  intros Harr Hkey. split; [|split].
  - intros st data Hup Hst Hnull. split.
    + rewrite run_api_chat. unfold ClosedB.api_chat_result.
      rewrite Harr, Hkey, Hup; simpl. rewrite (ok_false _ Hst).
      by destruct data.
    + intros Ht. by apply or_else_text.
  - intros Hup. rewrite run_api_chat. unfold ClosedB.api_chat_result.
    rewrite Harr, Hkey; simpl.
    by destruct Hup as [-> | [st ->]].
  - intros Hauth. split.
    + intros st data Hup Hst Hnull. split.
      * rewrite run_chat. unfold ClosedA.chat_result, ClosedA.chat_checked_result.
        rewrite Hauth, Harr, Hkey, Hup; simpl. rewrite (ok_false _ Hst).
        by destruct data.
      * intros Ht. by apply or_else_text.
    + intros Hup. rewrite run_chat. unfold ClosedA.chat_result, ClosedA.chat_checked_result.
      rewrite Hauth, Harr, Hkey; simpl.
      by destruct Hup as [-> | [st ->]].
Qed.

(** C6 at a sample input. *)
Lemma C6_witness :
  fst (fst (run (ServerB.api_chat SampleFailure.failing SampleFailure.question) ∅)) =
    json_response 429 (error_body "You exceeded your current quota")
  /\ fst (fst (run (ServerA.chat SampleFailure.failing SampleFailure.question) ∅)) =
    json_response 429 (error_body "You exceeded your current quota").
Proof.
  destruct (C6_upstream_failure SampleFailure.failing SampleFailure.question ∅ eq_refl eq_refl)
    as (HB & _ & HA).
  destruct (HB 429 SampleFailure.quota_body eq_refl ltac:(lia) ltac:(discriminate))
    as [EB _].
  destruct (HA eq_refl) as [HA1 _].
  destruct (HA1 429 SampleFailure.quota_body eq_refl ltac:(lia) ltac:(discriminate))
    as [EA _].
  rewrite EB, EA. split; reflexivity.
Defined.

(** C6 fails as stated: an upstream 502 whose body is not JSON is answered
    500 by both relays, not 502; and a truthy upstream message that is not
    a string is passed on as it is. *)
Lemma C6_counterexample :
  statusCode (fst (fst (run (ServerB.api_chat
                               (Sample.world Sample.with_key (Sample.replies 502 None))
                               SampleFailure.question) ∅))) = 500
  /\ statusCode (fst (fst (run (ServerA.chat
                               (Sample.world Sample.with_key (Sample.replies 502 None))
                               SampleFailure.question) ∅))) = 500
  /\ fst (fst (run (ServerB.api_chat
                      (Sample.world Sample.with_key
                         (Sample.replies 503
                            (Some (JObj [("error", JObj [("message", JNum (7 # 1))])]))))
                      SampleFailure.question) ∅)) =
     json_response 503 (JObj [("error", JNum (7 # 1))]).
Proof. repeat split; vm_compute; reflexivity. Qed.

(** *** server.js as a whole: headers and gates *)

Lemma final_handler_effect (req : Request) (s : State) :
  not_found req s = (inr tt, apply_effect (not_found_effect req) s).
Proof.
  unfold not_found, final_handler, not_found_effect, apply_effect.
  destruct (method req =? "HEAD")%string; cbn; by rewrite app_nil_r.
Qed.

Lemma health_effect (w : World) (req : Request) (s : State) :
  ServerA.health w req s =
  (inr tt, apply_effect (text_effect w req "OK: cv-chat-backend is running") s).
Proof.
  unfold ServerA.health, res_send_text, text_effect, apply_effect.
  destruct (is_fresh w req _); [cbn; by rewrite app_nil_r|].
  destruct (method req =? "HEAD")%string; cbn; by rewrite app_nil_r.
Qed.

Lemma chat_effect (w : World) (req : Request) (s : State) :
  ServerA.chat w req s = (inr tt, apply_effect (json_effect (ClosedA.chat_result w req)) s).
Proof. by rewrite chat_eval. Qed.

Lemma appA_eval (w : World) (req : Request) (s : State) :
  ServerA.app w req s =
  (inr tt, apply_effect (AppA.effect w req)
             (set_headers (AppA.cors_headers req (resHeaders (res s))) s)).
Proof.
  unfold ServerA.app, ServerA.cors, AppA.effect, AppA.cors_headers.
  fold (AppA.allowed req).
  unfold bind at 1.
  assert (Hhead :
    (if AppA.allowed req
     then res_header "Access-Control-Allow-Origin" (str_or_empty (headers req !! "origin"))
     else ret tt) s =
    (inr tt, set_headers
               (if AppA.allowed req
                then <["Access-Control-Allow-Origin" := str_or_empty (headers req !! "origin")]>
                       (resHeaders (res s))
                else resHeaders (res s)) s)).
  { destruct (AppA.allowed req); destruct s as [[] ? ?]; reflexivity. }
  rewrite Hhead. cbn [bind res_header modify_res set_headers res statusCode resHeaders
                      contentType sent calls quota].
  destruct (method req =? "OPTIONS")%string.
  { unfold res_end, modify_res, apply_effect; cbn. by rewrite app_nil_r. }
  unfold ServerA.routes.
  destruct (get_or_head req && route_matches "/" (path req)).
  { by rewrite health_effect. }
  destruct ((method req =? "POST")%string && route_matches "/chat" (path req)).
  { by rewrite chat_effect. }
  by rewrite final_handler_effect.
Qed.

Lemma run_appA (w : World) (req : Request) (table : gmap string (nat * Z)) :
  run (ServerA.app w req) table =
  (mkResponse (default 200 (eStatus (AppA.effect w req)))
              (AppA.cors_headers req ∅)
              (match eType (AppA.effect w req) with Some t => t | None => None end)
              (Some (ePayload (AppA.effect w req))),
   eCalls (AppA.effect w req), table).
Proof.
  unfold run. rewrite appA_eval. cbn.
  by destruct (eType (AppA.effect w req)).
Qed.





(** Both spellings of the token header name the same header. *)
Lemma client_token_lookup (req : Request) :
  ServerA.client_token req =
  str_or_empty (if truthy_str (headers req !! "x-client-token")
                then headers req !! "x-client-token" else Some "").
Proof.
  unfold ServerA.client_token.
  change (req_header req "X-Client-Token") with (headers req !! "x-client-token").
  change (req_header req "x-client-token") with (headers req !! "x-client-token").
  by destruct (truthy_str (headers req !! "x-client-token")).
Qed.








Lemma no_token_authorized (w : World) (req : Request) :
  env w !! "CLIENT_TOKEN" = None \/ env w !! "CLIENT_TOKEN" = Some "" ->
  ServerA.authorized w req = true.
Proof.
  intros H. unfold ServerA.authorized, ServerA.CLIENT_TOKEN.
  by destruct H as [-> | ->].
Qed.

(** A 401 from the part of [/chat] behind the token check is the
    upstream's own status. *)
Lemma checked_401 (w : World) (req : Request) :
  fst (fst (ClosedA.chat_checked_result w req)) = Some 401 ->
  (exists data, upstream w (ServerA.chat_call w req) = Reply 401 (Some data))
  /\ snd (ClosedA.chat_checked_result w req) = [ServerA.chat_call w req].
Proof.
  unfold ClosedA.chat_checked_result.
  destruct (isArray (conversation req)); [|discriminate].
  destruct (truthy_str (env w !! "OPENAI_API_KEY")); [|discriminate].
  cbn [negb].
  destruct (upstream w (ServerA.chat_call w req)) as [|st [data|]]; try discriminate.
  destruct ((200 <=? st) && (st <=? 299)); [discriminate|].
  destruct data; try discriminate; cbn; intros [= ->]; eauto.
Qed.

(** C10: with [CLIENT_TOKEN] unset or empty, every request passes the
    token check of [/chat]; what the handler answers is the same whatever
    headers the request carries; and the only 401 it can answer is the
    status of an upstream answer it mirrors, after the one outbound call. *)
Theorem C10_no_token_no_gate
    (w : World) (req : Request) (table : gmap string (nat * Z)) :
  env w !! "CLIENT_TOKEN" = None \/ env w !! "CLIENT_TOKEN" = Some "" ->
  ServerA.authorized w req = true
  /\ (forall hs, run (ServerA.chat w (with_headers req hs)) table
                 = run (ServerA.chat w req) table)
  /\ (statusCode (fst (fst (run (ServerA.chat w req) table))) = 401 ->
      (exists data, upstream w (ServerA.chat_call w req) = Reply 401 (Some data))
      /\ snd (fst (run (ServerA.chat w req) table)) = [ServerA.chat_call w req]).
Proof.
  intros Hunset. split; [|split].
  - by apply no_token_authorized.
  - intros hs. rewrite !run_chat. unfold ClosedA.chat_result.
    by rewrite !(no_token_authorized _ _ Hunset).
  - rewrite run_chat. unfold ClosedA.chat_result.
    rewrite (no_token_authorized _ _ Hunset). cbn [fst snd answer statusCode].
    intros H. apply checked_401.
    destruct (fst (fst (ClosedA.chat_checked_result w req))) as [c|]; cbn in H;
      [by subst | discriminate].
Qed.

(** C10 at a sample input. *)
Lemma C10_witness :
  ServerA.authorized (Sample.world Sample.with_key (Sample.replies 200 None))
     (Sample.post "/chat" {[ "x-client-token" := "anything" ]} Sample.valid_body) = true
  /\ (forall hs,
        run (ServerA.chat (Sample.world Sample.with_key (Sample.replies 200 None))
               (with_headers
                  (Sample.post "/chat" {[ "x-client-token" := "anything" ]} Sample.valid_body)
                  hs)) ∅ =
        run (ServerA.chat (Sample.world Sample.with_key (Sample.replies 200 None))
               (Sample.post "/chat" {[ "x-client-token" := "anything" ]} Sample.valid_body)) ∅).
Proof.
  destruct (C10_no_token_no_gate
              (Sample.world Sample.with_key (Sample.replies 200 None))
              (Sample.post "/chat" {[ "x-client-token" := "anything" ]} Sample.valid_body) ∅
              (or_introl eq_refl)) as (H1 & H2 & _).
  exact (conj H1 H2).
Defined.

(** The relay mirrors an upstream 401 also when no token is configured. *)
Example mirrored_401 :
  fst (fst (run (ServerA.chat
                   (Sample.world Sample.with_key
                      (Sample.replies 401
                         (Some (JObj [("error", JObj [("message", JStr "Incorrect API key")])]))))
                   (Sample.post "/chat" ∅ Sample.valid_body)) ∅)) =
  json_response 401 (error_body "Incorrect API key").
Proof. vm_compute. reflexivity. Qed.

(** *** The root path *)

(** C9, as amended: the server with static files answers a [GET /] that
    carries neither a precondition nor a range with status 200, type
    text/html and the contents of [index.html], provided that file exists
    next to the script (and the working directory holds the same file or
    none). *)
Theorem C9_root_sends_index
    (w : World) (now : Z) (req : Request) (table : gmap string (nat * Z)) (doc : string) :
  method req = "GET" -> path req = "/" ->
  ServerB.unconditional req = true ->
  fs w (ServerB.join (dirname w) "index.html") = Some doc ->
  fs w (ServerB.join (cwd w) "index.html") = None
  \/ fs w (ServerB.join (cwd w) "index.html") = Some doc ->
  run (ServerB.app w now req) table =
  (mkResponse 200 ∅ (Some "text/html") (Some (PFile doc)), [], table).
Proof.
  intros Hm Hp Hplain Hdir Hcwd.
  unfold run, ServerB.app, ServerB.static, ServerB.routes, ServerB.root, ServerB.send_index,
    get_or_head.
  rewrite Hm, Hp, Hplain.
  change (route_matches "/" "/") with true.
  cbn [String.eqb Ascii.eqb Bool.eqb andb orb].
  destruct Hcwd as [-> | ->]; [rewrite Hdir|]; reflexivity.
Qed.

(** C9 at a sample input. *)
Lemma C9_witness :
  run (ServerB.app SampleSite.site 0 (Sample.get "/" ∅)) ∅ =
  (mkResponse 200 ∅ (Some "text/html") (Some (PFile SampleSite.page)), [], ∅).
Proof.
  apply (C9_root_sends_index SampleSite.site 0 (Sample.get "/" ∅) ∅ SampleSite.page);
    [reflexivity | reflexivity | reflexivity | reflexivity | left; reflexivity].
Defined.

(** C9 fails as stated: server.js answers [GET /] with the plain-text
    line "OK: cv-chat-backend is running", not with an HTML document; and
    the other server answers 404 when there is no [index.html] to send. *)
Lemma C9_counterexample :
  contentType (fst (fst (run (ServerA.app SampleSite.site (Sample.get "/" ∅)) ∅))) =
    Some "text/plain"
  /\ sent (fst (fst (run (ServerA.app SampleSite.site (Sample.get "/" ∅)) ∅))) =
    Some (PText "OK: cv-chat-backend is running")
  /\ statusCode (fst (fst (run (ServerB.app
                                (Sample.world Sample.with_key (Sample.replies 200 None))
                                0 (Sample.get "/" ∅)) ∅))) = 404.
Proof. repeat split; vm_compute; reflexivity. Qed.

(** *** The quota of [/api/chat] *)

(** Case analysis over what a request outside the limited route meets. *)
Ltac other_routes w :=
  repeat match goal with
         | |- context [if ?b then _ else _] => destruct b
         | |- context [match fs w ?f with _ => _ end] => destruct (fs w f)
         | |- context [match conditional_send w ?r ?c with _ => _ end] =>
             destruct (conditional_send w r c) as [[[? ?] ?]|?]
         | |- context [match static_other w ?r with _ => _ end] =>
             destruct (static_other w r) as [[[? ?] ?]|]
         end.

Section Limiter.

Context (w : World).

Lemma appB_chat (now : Z) (req : Request) (table : gmap string (nat * Z)) :
  Quota.is_chat req = true ->
  run (ServerB.app w now req) table =
  if (ServerB.max <=? fst (Quota.current table now (ip req)))%nat then
    (json_response 429 ServerB.message, [],
     <[ip req := Quota.current table now (ip req)]> table)
  else
    (Quota.relayed w req,
     <[ip req := (S (fst (Quota.current table now (ip req))),
                  snd (Quota.current table now (ip req)))]> table).
Proof.
  intros Hchat. unfold Quota.is_chat in Hchat.
  apply andb_true_iff in Hchat as [Hm Hp].
  apply String.eqb_eq in Hm.
  unfold run, ServerB.app, ServerB.static, ServerB.routes, get_or_head. rewrite Hm, Hp.
  cbn [String.eqb Ascii.eqb Bool.eqb andb orb].
  unfold ServerB.chatLimiter, Quota.current. cbn [quota res calls].
  destruct (table !! ip req) as [[h r]|]; [destruct (now <? r)|];
    cbn [fst snd]; (destruct (ServerB.max <=? _)%nat;
      [reflexivity | rewrite api_chat_eval; unfold Quota.relayed; by rewrite run_api_chat]).
Qed.

Lemma appB_other (now : Z) (req : Request) (table : gmap string (nat * Z)) :
  Quota.is_chat req = false ->
  snd (run (ServerB.app w now req) table) = table.
Proof.
  intros Hchat. unfold Quota.is_chat in Hchat.
  unfold run, ServerB.app, ServerB.static, ServerB.routes, ServerB.root, ServerB.send_index,
    not_found, final_handler.
  rewrite Hchat. other_routes w; reflexivity.
Qed.

(** A request that the limiter does not count for [k] leaves the entry of
    [k] as it is. *)
Lemma appB_keeps (k : string) (now : Z) (req : Request) (table : gmap string (nat * Z)) :
  Quota.chat_from k req = false ->
  snd (run (ServerB.app w now req) table) !! k = table !! k.
Proof.
  intros Hfrom. unfold Quota.chat_from in Hfrom.
  destruct (Quota.is_chat req) eqn:Hchat.
  - simpl in Hfrom. apply String.eqb_neq in Hfrom.
    rewrite (appB_chat _ _ _ Hchat).
    destruct (ServerB.max <=? _)%nat; cbn [snd]; by rewrite lookup_insert_ne.
  - by rewrite (appB_other _ _ _ Hchat).
Qed.

Lemma serve_cons (srv : Z -> Request -> M unit) (table : gmap string (nat * Z))
    (now : Z) (req : Request) (rest : list (Z * Request)) :
  serve srv table ((now, req) :: rest) =
  (fst (run (srv now req) table) :: fst (serve srv (snd (run (srv now req) table)) rest),
   snd (serve srv (snd (run (srv now req) table)) rest)).
Proof.
  cbn [serve]. destruct (run (srv now req) table) as [[r cs] table'].
  cbn [fst snd]. by destruct (serve srv table' rest).
Qed.

Lemma counted_cons (k : string) (now : Z) (req : Request) (rest : list (Z * Request)) :
  Quota.counted k ((now, req) :: rest) =
  if Quota.chat_from k req then S (Quota.counted k rest) else Quota.counted k rest.
Proof.
  unfold Quota.counted. rewrite filter_cons. cbn [snd].
  destruct (Quota.chat_from k req); [by rewrite decide_True | by rewrite decide_False].
Qed.

(** Within a window that has room for them, the requests of [k] are all
    relayed and counted. *)
Lemma serve_within (k : string) (reqs : list (Z * Request)) :
  forall (table : gmap string (nat * Z)) (h : nat) (r : Z),
    table !! k = Some (h, r) ->
    Quota.before k r reqs ->
    (h + Quota.counted k reqs <= ServerB.max)%nat ->
    snd (serve (ServerB.app w) table reqs) !! k = Some ((h + Quota.counted k reqs)%nat, r)
    /\ Quota.all_relayed w k reqs (fst (serve (ServerB.app w) table reqs)).
Proof.
  induction reqs as [|[now req] rest IH]; intros table h r Hk Hbefore Hroom.
  - cbn. rewrite Nat.add_0_r. split; [done | constructor].
  - apply Forall_cons in Hbefore as [Hnow Hrest]. cbn [fst snd] in Hnow.
    rewrite serve_cons. cbn [fst snd].
    rewrite counted_cons in *.
    destruct (Quota.chat_from k req) eqn:Hfrom.
    + pose proof Hfrom as Hfrom'. unfold Quota.chat_from in Hfrom'.
      apply andb_true_iff in Hfrom' as [Hchat Hip]. apply String.eqb_eq in Hip.
      assert (Hcur : Quota.current table now (ip req) = (h, r)).
      { unfold Quota.current. rewrite Hip, Hk.
        destruct (Z.ltb_spec now r); [done | specialize (Hnow eq_refl); lia]. }
      rewrite (appB_chat _ _ _ Hchat), Hcur. cbn [fst snd].
      destruct (Nat.leb_spec ServerB.max h); [lia|]. cbn [fst snd].
      destruct (IH (<[ip req := (S h, r)]> table) (S h) r) as [IH1 IH2].
      { rewrite Hip. apply lookup_insert_eq. }
      { done. }
      { lia. }
      split.
      * rewrite IH1. f_equal. f_equal. lia.
      * constructor; [done | exact IH2].
    + destruct (IH (snd (run (ServerB.app w now req) table)) h r) as [IH1 IH2].
      { by rewrite appB_keeps. }
      { done. }
      { done. }
      split; [exact IH1|].
      constructor; [cbn [snd]; intros H; congruence | exact IH2].
Qed.

End Limiter.

(** C3, as amended: a request whose conversation is an array, that the
    limiter of [/api/chat] lets through and that the token check of
    [/chat] lets through, is answered 500 with the message that the key
    is not set, without any outbound call, when [OPENAI_API_KEY] is unset
    or empty; this holds for the two handlers and for the two servers as
    a whole.  Both relays look at the conversation first, so a request
    without one is answered 400 before the key is looked at. *)
Theorem C3_missing_key_after_validation
    (w : World) (now : Z) (req : Request) (table : gmap string (nat * Z)) :
  truthy_str (env w !! "OPENAI_API_KEY") = false ->
  isArray (conversation req) = true ->
  run (ServerB.api_chat w req) table =
    (json_response 500 (error_body "OPENAI_API_KEY is not set on the server"), [], table)
  /\ (Quota.is_chat req = true ->
      (fst (Quota.current table now (ip req)) < ServerB.max)%nat ->
      fst (run (ServerB.app w now req) table) =
        (json_response 500 (error_body "OPENAI_API_KEY is not set on the server"), []))
  /\ (ServerA.authorized w req = true ->
      run (ServerA.chat w req) table =
        (json_response 500 (error_body "OPENAI_API_KEY is not set on the server"), [], table))
  /\ (ServerA.authorized w req = true ->
      method req = "POST" -> route_matches "/chat" (path req) = true ->
      statusCode (fst (fst (run (ServerA.app w req) table))) = 500
      /\ sent (fst (fst (run (ServerA.app w req) table)))
         = Some (PJson (error_body "OPENAI_API_KEY is not set on the server"))
      /\ snd (fst (run (ServerA.app w req) table)) = []).
Proof.
  intros Hkey Harr.
  assert (HB : run (ServerB.api_chat w req) table =
    (json_response 500 (error_body "OPENAI_API_KEY is not set on the server"), [], table)).
  { rewrite run_api_chat. unfold ClosedB.api_chat_result. by rewrite Harr, Hkey. }
  split; [exact HB|]. split; [|split].
  - intros Hchat Hroom. rewrite (appB_chat _ _ _ _ Hchat).
    destruct (Nat.leb_spec ServerB.max (fst (Quota.current table now (ip req)))); [lia|].
    cbn [fst]. unfold Quota.relayed. rewrite run_api_chat. unfold ClosedB.api_chat_result.
    by rewrite Harr, Hkey.
  - intros Hauth. rewrite run_chat. unfold ClosedA.chat_result, ClosedA.chat_checked_result.
    by rewrite Hauth, Harr, Hkey.
  - intros Hauth Hm Hp. rewrite run_appA.
    unfold AppA.effect, get_or_head, ClosedA.chat_result, ClosedA.chat_checked_result.
    rewrite Hm, Hp, Hauth, Harr, Hkey. repeat split; reflexivity.
Qed.

(** C3 at a sample input. *)
Lemma C3_witness :
  fst (run (ServerB.app (Sample.world ∅ (Sample.replies 200 None)) 0
              (Sample.post "/api/chat" ∅ Sample.valid_body)) ∅) =
    (json_response 500 (error_body "OPENAI_API_KEY is not set on the server"), [])
  /\ run (ServerA.chat (Sample.world ∅ (Sample.replies 200 None))
                       (Sample.post "/chat" ∅ Sample.valid_body)) ∅ =
     (json_response 500 (error_body "OPENAI_API_KEY is not set on the server"), [], ∅).
Proof.
  pose proof (C3_missing_key_after_validation
                (Sample.world ∅ (Sample.replies 200 None)) 0
                (Sample.post "/api/chat" ∅ Sample.valid_body) ∅) as HB.
  pose proof (C3_missing_key_after_validation
                (Sample.world ∅ (Sample.replies 200 None)) 0
                (Sample.post "/chat" ∅ Sample.valid_body) ∅) as HA.
  destruct HB as (_ & HB & _ & _); [reflexivity | reflexivity |].
  destruct HA as (_ & _ & HA & _); [reflexivity | reflexivity |].
  split; [apply HB; [reflexivity | vm_compute; lia] | apply HA; reflexivity].
Defined.

(** C3 fails as stated: with the key unset, a body without [messages] is
    answered 400 by both relays, not 500; with a token configured and the
    key unset, [/chat] answers a request without the token 401; and a
    client at its ceiling is answered 429 by the limiter of [/api/chat]. *)
Lemma C3_counterexample :
  env (Sample.world ∅ (Sample.replies 200 None)) !! "OPENAI_API_KEY" = None
  /\ env (Sample.world Sample.only_token (Sample.replies 200 None)) !! "OPENAI_API_KEY" = None
  /\ fst (fst (run (ServerA.chat (Sample.world Sample.only_token (Sample.replies 200 None))
                      (Sample.post "/chat" ∅ Sample.valid_body)) ∅)) =
     json_response 401 (error_body "Unauthorized")
  /\ fst (fst (run (ServerB.api_chat (Sample.world ∅ (Sample.replies 200 None))
                      (Sample.post "/api/chat" ∅ (Some (JObj [])))) ∅)) =
     json_response 400 (error_body "messages must be an array")
  /\ fst (fst (run (ServerA.chat (Sample.world ∅ (Sample.replies 200 None))
                      (Sample.post "/chat" ∅ (Some (JObj [])))) ∅)) =
     json_response 400 (error_body "messages must be an array")
  /\ fst (fst (run (ServerB.app (Sample.world ∅ (Sample.replies 200 None)) SampleRun.hour
                      (Sample.post "/api/chat" ∅ Sample.valid_body))
                   {[ "203.0.113.7" := (50%nat, ServerB.windowMs) ]})) =
     json_response 429 ServerB.message.
Proof. repeat split; vm_compute; reflexivity. Qed.

(** C2, as amended: in the server that limits [/api/chat] (the limiter
    being modelled from the spec), when client [k] has no live window and
    then sends 50 requests to the route before the window that its first
    one opened has elapsed, in any interleaving with other traffic, all 50
    get the handler's own answer; a 51st before the end of the window is
    answered 429 with the fixed message and no outbound call; the first
    one after the end of the window gets the handler's answer again and
    the counter of [k] restarts at 1.  server.js has no limiter at all. *)
Theorem C2_quota_of_api_chat
    (w : World) (k : string) (table : gmap string (nat * Z))
    (t0 : Z) (first : Request) (rest : list (Z * Request))
    (t51 : Z) (r51 : Request) (tnext : Z) (rnext : Request) :
  (forall h r, table !! k = Some (h, r) -> r <= t0) ->
  Quota.chat_from k first = true ->
  Quota.counted k rest = 49%nat ->
  Quota.before k (t0 + ServerB.windowMs) rest ->
  Quota.chat_from k r51 = true -> t51 < t0 + ServerB.windowMs ->
  Quota.chat_from k rnext = true -> t0 + ServerB.windowMs <= tnext ->
  let run50 := serve (ServerB.app w) table ((t0, first) :: rest) in
  let out51 := run (ServerB.app w t51 r51) (snd run50) in
  let outnext := run (ServerB.app w tnext rnext) (snd out51) in
  Quota.all_relayed w k ((t0, first) :: rest) (fst run50)
  /\ snd run50 !! k = Some (50%nat, t0 + ServerB.windowMs)
  /\ fst out51 = (json_response 429 ServerB.message, [])
  /\ fst outnext = Quota.relayed w rnext
  /\ snd outnext !! k = Some (1%nat, tnext + ServerB.windowMs).
Proof.
  intros Hfresh Hfirst Hcount Hbefore H51 Ht51 Hnext Htnext. cbv zeta.
  assert (Hsplit : forall req, Quota.chat_from k req = true ->
                               Quota.is_chat req = true /\ ip req = k).
  { intros req H. unfold Quota.chat_from in H.
    apply andb_true_iff in H as [? Hip]. by apply String.eqb_eq in Hip. }
  destruct (Hsplit _ Hfirst) as [Hc0 Hip0].
  destruct (Hsplit _ H51) as [Hc51 Hip51].
  destruct (Hsplit _ Hnext) as [Hcn Hipn].
  (* the first request opens the window *)
  assert (Hcur0 : Quota.current table t0 (ip first) = (0%nat, t0 + ServerB.windowMs)).
  { unfold Quota.current. rewrite Hip0.
    destruct (table !! k) as [[h r]|] eqn:Hk; [|done].
    specialize (Hfresh h r eq_refl). by destruct (Z.ltb_spec t0 r); [lia|]. }
  rewrite serve_cons. cbn [fst snd].
  rewrite (appB_chat _ _ _ _ Hc0), Hcur0. cbn [fst snd Nat.leb ServerB.max].
  (* the 49 that follow fit into it *)
  destruct (serve_within w k rest
              (<[ip first := (1%nat, t0 + ServerB.windowMs)]> table)
              1%nat (t0 + ServerB.windowMs)) as [Hcounter Hrelayed].
  { rewrite Hip0. apply lookup_insert_eq. }
  { done. }
  { rewrite Hcount. unfold ServerB.max. lia. }
  rewrite Hcount in Hcounter. change (1 + 49)%nat with 50%nat in Hcounter.
  set (table50 := snd (serve (ServerB.app w)
                         (<[ip first := (1%nat, t0 + ServerB.windowMs)]> table) rest)) in *.
  (* the 51st finds the counter at the ceiling *)
  assert (Hcur51 : Quota.current table50 t51 (ip r51) = (50%nat, t0 + ServerB.windowMs)).
  { unfold Quota.current. rewrite Hip51, Hcounter.
    by destruct (Z.ltb_spec t51 (t0 + ServerB.windowMs)); [|lia]. }
  rewrite (appB_chat _ _ _ _ Hc51), Hcur51. cbn [fst snd Nat.leb ServerB.max].
  (* the next one finds the window over *)
  assert (Hcurn : Quota.current (<[ip r51 := (50%nat, t0 + ServerB.windowMs)]> table50)
                    tnext (ip rnext) = (0%nat, tnext + ServerB.windowMs)).
  { unfold Quota.current. rewrite Hipn, Hip51, lookup_insert_eq.
    by destruct (Z.ltb_spec tnext (t0 + ServerB.windowMs)); [lia|]. }
  rewrite (appB_chat _ _ _ _ Hcn), Hcurn. cbn [fst snd Nat.leb ServerB.max].
  repeat split; try done.
  - constructor; [done | exact Hrelayed].
  - rewrite Hipn. apply lookup_insert_eq.
Qed.

(** C2 at a sample input. *)
Lemma C2_witness :
  let run50 := serve (ServerB.app SampleRun.answering) ∅ ((0, SampleRun.ask) :: SampleRun.more) in
  let out51 :=
    run (ServerB.app SampleRun.answering (23 * SampleRun.hour) SampleRun.ask) (snd run50) in
  let outnext :=
    run (ServerB.app SampleRun.answering (24 * SampleRun.hour) SampleRun.ask) (snd out51) in
  Quota.all_relayed SampleRun.answering SampleRun.client
    ((0, SampleRun.ask) :: SampleRun.more) (fst run50)
  /\ snd run50 !! SampleRun.client = Some (50%nat, 0 + ServerB.windowMs)
  /\ fst out51 = (json_response 429 ServerB.message, [])
  /\ fst outnext = Quota.relayed SampleRun.answering SampleRun.ask
  /\ snd outnext !! SampleRun.client = Some (1%nat, 24 * SampleRun.hour + ServerB.windowMs).
Proof.
  apply (C2_quota_of_api_chat SampleRun.answering SampleRun.client ∅ 0 SampleRun.ask SampleRun.more
           (23 * SampleRun.hour) SampleRun.ask (24 * SampleRun.hour) SampleRun.ask).
  - intros h r H. rewrite lookup_empty in H. discriminate H.
  - reflexivity.
  - vm_compute. reflexivity.
  - apply Forall_replicate. intros _. vm_compute. reflexivity.
  - reflexivity.
  - vm_compute. reflexivity.
  - reflexivity.
  - vm_compute. discriminate.
Defined.

(** C2 fails as stated: server.js has no limiter, so the 51st request of a
    client to [/chat] within the hour is relayed like the first. *)
Lemma C2_counterexample :
  exists r call,
    fst (serve (fun _ => ServerA.app SampleRun.answering) ∅ SampleRun.burst) !! 50%nat
      = Some (r, [call])
    /\ statusCode r = 200.
Proof. eexists _, _. split; vm_compute; reflexivity. Qed.

(** ** Further properties of the two servers *)

(** *** server.js: the CORS middleware and the health check *)

(** X1: server.js answers every OPTIONS request, whatever its path, token
    or origin, with status 204 and an empty body; no route runs, no
    outbound call is made. *)
Theorem X1_preflight_is_204
    (w : World) (req : Request) (table : gmap string (nat * Z)) :
  method req = "OPTIONS" ->
  statusCode (fst (fst (run (ServerA.app w req) table))) = 204
  /\ sent (fst (fst (run (ServerA.app w req) table))) = Some PEmpty
  /\ contentType (fst (fst (run (ServerA.app w req) table))) = None
  /\ snd (fst (run (ServerA.app w req) table)) = []
  /\ snd (run (ServerA.app w req) table) = table.
Proof.
  intros Hm. rewrite run_appA. unfold AppA.effect. rewrite Hm. by cbn.
Qed.

(** X1 at a sample input. *)
Lemma X1_witness :
  statusCode (fst (fst (run (ServerA.app SampleExtra.token_world SampleExtra.preflight) ∅))) = 204
  /\ sent (fst (fst (run (ServerA.app SampleExtra.token_world SampleExtra.preflight) ∅)))
     = Some PEmpty
  /\ contentType (fst (fst (run (ServerA.app SampleExtra.token_world SampleExtra.preflight) ∅)))
     = None
  /\ snd (fst (run (ServerA.app SampleExtra.token_world SampleExtra.preflight) ∅)) = []
  /\ snd (run (ServerA.app SampleExtra.token_world SampleExtra.preflight) ∅) = ∅.
Proof.
  apply (X1_preflight_is_204 SampleExtra.token_world SampleExtra.preflight ∅). reflexivity.
Defined.

(** X2: every response of server.js, also a 401, a 404 or a preflight
    answer, carries [Vary: Origin], the allowed headers and the allowed
    methods. *)
Theorem X2_cors_headers_always
    (w : World) (req : Request) (table : gmap string (nat * Z)) :
  resHeaders (fst (fst (run (ServerA.app w req) table))) !! "Vary" = Some "Origin"
  /\ resHeaders (fst (fst (run (ServerA.app w req) table))) !! "Access-Control-Allow-Headers"
     = Some "Content-Type, X-Client-Token"
  /\ resHeaders (fst (fst (run (ServerA.app w req) table))) !! "Access-Control-Allow-Methods"
     = Some "OPTIONS, POST, GET".
Proof.
  rewrite run_appA. cbn [fst resHeaders]. unfold AppA.cors_headers.
  repeat split.
  - rewrite !lookup_insert_ne by discriminate. apply lookup_insert_eq.
  - rewrite lookup_insert_ne by discriminate. apply lookup_insert_eq.
  - apply lookup_insert_eq.
Qed.

(** X3: the health check of server.js is not behind the token check: a
    [GET /] that carries no validator ([If-None-Match],
    [If-Modified-Since]) is answered 200, text/plain, "OK: cv-chat-backend
    is running", whatever the environment and the client token, with no
    outbound call. *)
Theorem X3_health_is_open
    (w : World) (req : Request) (table : gmap string (nat * Z)) :
  method req = "GET" -> path req = "/" ->
  truthy_str (headers req !! "if-none-match") = false ->
  truthy_str (headers req !! "if-modified-since") = false ->
  statusCode (fst (fst (run (ServerA.app w req) table))) = 200
  /\ contentType (fst (fst (run (ServerA.app w req) table))) = Some "text/plain"
  /\ sent (fst (fst (run (ServerA.app w req) table)))
     = Some (PText "OK: cv-chat-backend is running")
  /\ snd (fst (run (ServerA.app w req) table)) = [].
Proof.
  intros Hm Hp Hinm Hims. rewrite run_appA.
  unfold AppA.effect, text_effect, is_fresh, get_or_head.
  rewrite Hm, Hp, Hinm, Hims. repeat split; reflexivity.
Qed.

(** X3 at a sample input. *)
Lemma X3_witness :
  statusCode (fst (fst (run (ServerA.app SampleExtra.token_world (Sample.get "/" ∅)) ∅))) = 200
  /\ contentType (fst (fst (run (ServerA.app SampleExtra.token_world (Sample.get "/" ∅)) ∅)))
     = Some "text/plain"
  /\ sent (fst (fst (run (ServerA.app SampleExtra.token_world (Sample.get "/" ∅)) ∅)))
     = Some (PText "OK: cv-chat-backend is running")
  /\ snd (fst (run (ServerA.app SampleExtra.token_world (Sample.get "/" ∅)) ∅)) = [].
Proof.
  apply (X3_health_is_open SampleExtra.token_world (Sample.get "/" ∅) ∅); reflexivity.
Defined.

(** *** server.js: the token check *)

Lemma authorized_with_token (w : World) (req : Request) :
  headers req !! "x-client-token" = Some (ServerA.CLIENT_TOKEN w) ->
  ServerA.authorized w req = true.
Proof.
  intros H. unfold ServerA.authorized. rewrite client_token_lookup, H.
  destruct (String.eqb_spec (ServerA.CLIENT_TOKEN w) ""); [done|].
  cbn [truthy_str]. destruct (String.eqb_spec (ServerA.CLIENT_TOKEN w) ""); [done|].
  cbn [negb str_or_empty]. by rewrite String.eqb_refl.
Qed.

Lemma without_token_authorized (w : World) (req : Request) :
  ServerA.authorized (without_token w) req = true.
Proof.
  apply no_token_authorized. left. cbn [without_token env]. apply lookup_delete_eq.
Qed.

Lemma without_token_checked (w : World) (req : Request) :
  ClosedA.chat_checked_result (without_token w) req = ClosedA.chat_checked_result w req.
Proof.
  unfold ClosedA.chat_checked_result, ServerA.chat_call.
  cbn [without_token env upstream].
  by rewrite lookup_delete_ne.
Qed.

(** X4: a request whose [X-Client-Token] header carries the configured
    token is answered by server.js exactly as the same request is by a
    deployment with no token configured. *)
Theorem X4_right_token_opens_gate
    (w : World) (req : Request) (table : gmap string (nat * Z)) :
  headers req !! "x-client-token" = Some (ServerA.CLIENT_TOKEN w) ->
  run (ServerA.app w req) table = run (ServerA.app (without_token w) req) table.
Proof.
  intros H. rewrite !run_appA. unfold AppA.effect, ClosedA.chat_result.
  by rewrite (authorized_with_token _ _ H), without_token_authorized, without_token_checked.
Qed.

(** X4 at a sample input. *)
Lemma X4_witness :
  run (ServerA.app SampleExtra.token_world SampleExtra.with_token) ∅ =
  run (ServerA.app (without_token SampleExtra.token_world) SampleExtra.with_token) ∅.
Proof.
  apply (X4_right_token_opens_gate SampleExtra.token_world SampleExtra.with_token ∅).
  reflexivity.
Defined.

(** *** What reaches the upstream *)

Lemma conversation_of_fields (req : Request) (fields : list (string * JSON)) :
  body req = Some (JObj fields) -> conversation req = assoc "messages" fields.
Proof. intros H. unfold conversation. by rewrite H. Qed.

Lemma option_of_fields (req : Request) (fields : list (string * JSON)) (k : string) (d : JSON) :
  body req = Some (JObj fields) -> option_of req k d = with_default (assoc k fields) d.
Proof. intros H. unfold option_of. by rewrite H. Qed.

Lemma isArray_inv (v : Value) : isArray v = true -> exists xs, v = Some (JArr xs).
Proof. destruct v as [[]|]; try discriminate. eauto. Qed.

Lemma truthy_str_inv (s : option string) :
  truthy_str s = true -> exists key, s = Some key /\ key <> "".
Proof.
  destruct s as [key|]; [|discriminate]. cbn.
  destruct (String.eqb_spec key ""); [discriminate|]. eauto.
Qed.

(** The calls [/chat] makes: one, once the three guards are passed. *)
Lemma chat_calls (w : World) (req : Request) :
  snd (ClosedA.chat_result w req) =
  if ServerA.authorized w req && isArray (conversation req)
     && truthy_str (env w !! "OPENAI_API_KEY")
  then [ServerA.chat_call w req] else [].
Proof.
  unfold ClosedA.chat_result, ClosedA.chat_checked_result.
  destruct (ServerA.authorized w req); [|done].
  destruct (isArray (conversation req)); [|done].
  destruct (truthy_str (env w !! "OPENAI_API_KEY")); [|done]. cbn [negb andb].
  destruct (upstream w (ServerA.chat_call w req)) as [|st [data|]]; try done.
  destruct ((200 <=? st) && (st <=? 299)); [done|]. by destruct data.
Qed.

(** The calls [/api/chat] makes: one, once the two guards are passed. *)
Lemma api_chat_calls (w : World) (req : Request) :
  snd (ClosedB.api_chat_result w req) =
  if isArray (conversation req) && truthy_str (env w !! "OPENAI_API_KEY")
  then [ServerB.api_chat_call w req] else [].
Proof.
  unfold ClosedB.api_chat_result.
  destruct (isArray (conversation req)); [|done].
  destruct (truthy_str (env w !! "OPENAI_API_KEY")); [|done]. cbn [negb andb].
  destruct (upstream w (ServerB.api_chat_call w req)) as [|st [data|]]; try done.
  destruct data; by destruct ((200 <=? st) && (st <=? 299)).
Qed.

(** X6: whatever the request, each relay makes at most one outbound call,
    and a call it makes is a POST to the completions URL that carries the
    server's own key as bearer credential and the request's [messages]
    array unchanged. *)
Theorem X6_outbound_call
    (w : World) (req : Request) (table : gmap string (nat * Z)) (rq : FetchReq) :
  (In rq (snd (fst (run (ServerA.chat w req) table))) ->
   snd (fst (run (ServerA.chat w req) table)) = [rq] /\ relays_conversation w req rq)
  /\ (In rq (snd (fst (run (ServerB.api_chat w req) table))) ->
      snd (fst (run (ServerB.api_chat w req) table)) = [rq] /\ relays_conversation w req rq).
Proof.
  rewrite run_chat, run_api_chat. cbn [fst snd].
  rewrite chat_calls, api_chat_calls.
  destruct (isArray (conversation req)) eqn:Harr;
    [|rewrite andb_false_r; cbn; tauto].
  destruct (truthy_str (env w !! "OPENAI_API_KEY")) eqn:Hkey;
    [|rewrite andb_false_r; cbn; tauto].
  destruct (isArray_inv _ Harr) as [xs Hxs].
  destruct (truthy_str_inv _ Hkey) as (key & Hk & Hne).
  assert (Hshape : forall rq', rq' = ServerA.chat_call w req \/ rq' = ServerB.api_chat_call w req ->
                               relays_conversation w req rq').
  { intros rq' Hrq. exists key, xs. split; [done|]. split; [done|]. split; [done|].
    destruct Hrq as [-> | ->]; unfold ServerA.chat_call, ServerB.api_chat_call;
      rewrite Hk, Hxs; by cbn. }
  split; intros Hin.
  - destruct (ServerA.authorized w req); cbn in Hin |- *; [|done].
    destruct Hin as [<- | []]. split; [done | apply Hshape; by left].
  - cbn in Hin |- *. destruct Hin as [<- | []]. split; [done | apply Hshape; by right].
Qed.

(** X6 at a sample input. *)
Lemma X6_witness :
  snd (fst (run (ServerA.chat SampleExtra.open_world SampleExtra.bare) ∅))
  = [ServerA.chat_call SampleExtra.open_world SampleExtra.bare]
  /\ relays_conversation SampleExtra.open_world SampleExtra.bare
       (ServerA.chat_call SampleExtra.open_world SampleExtra.bare).
Proof.
  apply (proj1 (X6_outbound_call SampleExtra.open_world SampleExtra.bare ∅
                  (ServerA.chat_call SampleExtra.open_world SampleExtra.bare))).
  left. reflexivity.
Defined.

(** X7: when the body gives only [messages], the call of [/chat] carries
    the model "gpt-4o-mini", temperature 0.3 and max_tokens 500, and the
    call of [/api/chat] the same model with temperature 0.7 and max_tokens
    800. *)
Theorem X7_defaults_of_the_options
    (w : World) (req : Request) (table : gmap string (nat * Z))
    (fields : list (string * JSON)) (xs : list JSON) (key : string) :
  body req = Some (JObj fields) ->
  assoc "messages" fields = Some (JArr xs) ->
  assoc "model" fields = None ->
  assoc "temperature" fields = None ->
  assoc "max_tokens" fields = None ->
  env w !! "OPENAI_API_KEY" = Some key -> key <> "" ->
  snd (fst (run (ServerB.api_chat w req) table)) =
    [completion_request key (JStr "gpt-4o-mini") (JArr xs) (JNum (7 # 10)) (JNum (800 # 1))]
  /\ (ServerA.authorized w req = true ->
      snd (fst (run (ServerA.chat w req) table)) =
        [completion_request key (JStr "gpt-4o-mini") (JArr xs) (JNum (3 # 10)) (JNum (500 # 1))]).
Proof.
  intros Hb Hmsgs Hmodel Htemp Hmax Hk Hne.
  assert (Hkey : truthy_str (env w !! "OPENAI_API_KEY") = true).
  { rewrite Hk. cbn. by destruct (String.eqb_spec key ""). }
  assert (Hconv : conversation req = Some (JArr xs)).
  { by rewrite (conversation_of_fields _ _ Hb). }
  rewrite run_chat, run_api_chat. cbn [fst snd].
  rewrite chat_calls, api_chat_calls, Hconv, Hkey.
  unfold ServerA.chat_call, ServerB.api_chat_call.
  rewrite !(option_of_fields _ _ _ _ Hb), Hconv, Hk, Hmodel, Htemp, Hmax.
  split; [done|]. by intros ->.
Qed.

(** X7 at a sample input. *)
Lemma X7_witness :
  snd (fst (run (ServerB.api_chat SampleExtra.open_world SampleExtra.bare) ∅)) =
    [completion_request "sk-test" (JStr "gpt-4o-mini") Sample.two_turns
       (JNum (7 # 10)) (JNum (800 # 1))]
  /\ (ServerA.authorized SampleExtra.open_world SampleExtra.bare = true ->
      snd (fst (run (ServerA.chat SampleExtra.open_world SampleExtra.bare) ∅)) =
        [completion_request "sk-test" (JStr "gpt-4o-mini") Sample.two_turns
           (JNum (3 # 10)) (JNum (500 # 1))]).
Proof.
  apply (X7_defaults_of_the_options SampleExtra.open_world SampleExtra.bare ∅
           [("messages", Sample.two_turns)]
           [JObj [("role", JStr "system"); ("content", JStr "You answer about the CV.")];
            JObj [("role", JStr "user"); ("content", JStr "Where did she work?")]]
           "sk-test");
    [reflexivity | reflexivity | reflexivity | reflexivity | reflexivity | reflexivity
    | discriminate].
Defined.

(** *** The shape of the answers *)

Lemma truthy_or_else (v : Value) (d : string) :
  d <> "" -> truthy (Some (or_else v (JStr d))) = true.
Proof.
  intros Hd. unfold or_else. destruct v as [x|].
  - destruct (truthy (Some x)) eqn:E; [exact E|]. cbn. by destruct (String.eqb_spec d "").
  - cbn. by destruct (String.eqb_spec d "").
Qed.

Lemma ok_spec (st : Z) :
  ((200 <=? st) && (st <=? 299) = true /\ 200 <= st <= 299)
  \/ ((200 <=? st) && (st <=? 299) = false /\ ~ 200 <= st <= 299).
Proof.
  destruct (Z.leb_spec 200 st), (Z.leb_spec st 299); cbn; [left | right ..];
    (split; [done | lia]).
Qed.

(** X9: every answer of the [/api/chat] handler is a JSON object with one
    property that is never falsy: [message] with status 200, and then the
    upstream has answered 2xx, or [error] with any other status. *)
Theorem X9_api_chat_answer_shape
    (w : World) (req : Request) (table : gmap string (nat * Z)) :
  (statusCode (fst (fst (run (ServerB.api_chat w req) table))) = 200
   /\ (exists v, sent (fst (fst (run (ServerB.api_chat w req) table)))
                 = Some (PJson (JObj [("message", v)]))
                 /\ truthy (Some v) = true)
   /\ exists st data, upstream w (ServerB.api_chat_call w req) = Reply st (Some data)
                      /\ 200 <= st <= 299)
  \/ (statusCode (fst (fst (run (ServerB.api_chat w req) table))) <> 200
      /\ exists v, sent (fst (fst (run (ServerB.api_chat w req) table)))
                   = Some (PJson (JObj [("error", v)]))
                   /\ truthy (Some v) = true).
Proof.
  rewrite run_api_chat. unfold ClosedB.api_chat_result.
  destruct (isArray (conversation req)); cbn [negb];
    [|right; cbn; split; [done | by eexists]].
  destruct (truthy_str (env w !! "OPENAI_API_KEY")); cbn [negb];
    [|right; cbn; split; [done | by eexists]].
  destruct (upstream w (ServerB.api_chat_call w req)) as [|st [data|]];
    try (right; cbn; split; [done | by eexists]).
  destruct (ok_spec st) as [[-> Hst] | [-> Hst]].
  - destruct data; try (right; cbn; split; [done | by eexists]);
      (left; split; [reflexivity|]; split;
       [eexists; split; [reflexivity | by apply truthy_or_else] | by eexists _, _]).
  - destruct data; try (right; cbn; split; [done | by eexists]);
      (right; split; [cbn; lia|]; eexists; split;
       [reflexivity | by apply truthy_or_else]).
Qed.

(** X10: an answer of [/chat] other than the 200 pass-through of an
    upstream 2xx body is a JSON object with the one property [error],
    never falsy, and a status other than 200. *)
Theorem X10_chat_answer_shape
    (w : World) (req : Request) (table : gmap string (nat * Z)) :
  (statusCode (fst (fst (run (ServerA.chat w req) table))) = 200
   /\ exists st data, upstream w (ServerA.chat_call w req) = Reply st (Some data)
                      /\ 200 <= st <= 299
                      /\ sent (fst (fst (run (ServerA.chat w req) table))) = Some (PJson data)
                      /\ snd (fst (run (ServerA.chat w req) table)) = [ServerA.chat_call w req])
  \/ (statusCode (fst (fst (run (ServerA.chat w req) table))) <> 200
      /\ exists v, sent (fst (fst (run (ServerA.chat w req) table)))
                   = Some (PJson (JObj [("error", v)]))
                   /\ truthy (Some v) = true).
Proof.
  rewrite run_chat. unfold ClosedA.chat_result, ClosedA.chat_checked_result.
  destruct (ServerA.authorized w req);
    [|right; cbn; split; [done | by eexists]].
  destruct (isArray (conversation req)); cbn [negb];
    [|right; cbn; split; [done | by eexists]].
  destruct (truthy_str (env w !! "OPENAI_API_KEY")); cbn [negb];
    [|right; cbn; split; [done | by eexists]].
  destruct (upstream w (ServerA.chat_call w req)) as [|st [data|]];
    try (right; cbn; split; [done | by eexists]).
  destruct (ok_spec st) as [[-> Hst] | [-> Hst]].
  - left. cbn. split; [done|]. by eexists _, _.
  - destruct data; try (right; cbn; split; [done | by eexists]);
      (right; split; [cbn; lia|]; eexists; split;
       [reflexivity | by apply truthy_or_else]).
Qed.

(** *** Which requests reach the upstream *)

(** X11: server.js calls the upstream exactly for a POST to the [/chat]
    route (in any case, with or without a trailing slash) that passes the
    token check, carries an array under [messages] and finds the key set;
    every other request is answered without any outbound call. *)
Theorem X11_chat_reaches_upstream_iff
    (w : World) (req : Request) (table : gmap string (nat * Z)) :
  snd (fst (run (ServerA.app w req) table)) <> []
  <-> method req = "POST" /\ route_matches "/chat" (path req) = true
      /\ ServerA.authorized w req = true
      /\ isArray (conversation req) = true
      /\ truthy_str (env w !! "OPENAI_API_KEY") = true.
Proof.
  rewrite run_appA. cbn [fst snd]. unfold AppA.effect, text_effect, not_found_effect. split.
  - destruct (method req =? "OPTIONS")%string; [done|].
    destruct (get_or_head req && route_matches "/" (path req));
      [by destruct (is_fresh w req _)|].
    destruct (String.eqb_spec (method req) "POST") as [Hm|]; [|done].
    destruct (route_matches "/chat" (path req)); [|done].
    cbn [andb json_effect eCalls]. rewrite chat_calls.
    destruct (ServerA.authorized w req), (isArray (conversation req)),
      (truthy_str (env w !! "OPENAI_API_KEY")); done.
  - intros (Hm & Hp & Hauth & Harr & Hkey). unfold get_or_head. rewrite Hm, Hp.
    cbn [String.eqb Ascii.eqb Bool.eqb andb orb json_effect eCalls].
    by rewrite chat_calls, Hauth, Harr, Hkey.
Qed.

(** X11 at a sample input. *)
Lemma X11_witness :
  snd (fst (run (ServerA.app SampleExtra.open_world SampleExtra.bare) ∅)) <> [].
Proof.
  apply (proj2 (X11_chat_reaches_upstream_iff SampleExtra.open_world SampleExtra.bare ∅)).
  repeat split; reflexivity.
Defined.

(** X12: in the other server an outbound call is made only for a POST to
    the [/api/chat] route (in any case, with or without a trailing slash)
    that carries an array under [messages] while the key is set; static
    files, [GET /] and unknown routes never call the upstream. *)
Theorem X12_api_chat_reaches_upstream_only_if
    (w : World) (now : Z) (req : Request) (table : gmap string (nat * Z)) :
  snd (fst (run (ServerB.app w now req) table)) <> [] ->
  method req = "POST" /\ route_matches "/api/chat" (path req) = true
  /\ isArray (conversation req) = true
  /\ truthy_str (env w !! "OPENAI_API_KEY") = true
  /\ snd (fst (run (ServerB.app w now req) table)) = [ServerB.api_chat_call w req].
Proof.
  destruct (Quota.is_chat req) eqn:Hchat.
  - rewrite (appB_chat _ _ _ _ Hchat).
    unfold Quota.is_chat in Hchat. apply andb_true_iff in Hchat as [Hm Hp].
    apply String.eqb_eq in Hm.
    destruct (ServerB.max <=? _)%nat; cbn [fst snd]; [done|].
    unfold Quota.relayed. rewrite run_api_chat. cbn [fst snd]. rewrite api_chat_calls.
    destruct (isArray (conversation req)), (truthy_str (env w !! "OPENAI_API_KEY")); done.
  - unfold Quota.is_chat in Hchat.
    unfold run, ServerB.app, ServerB.static, ServerB.routes, ServerB.root,
      ServerB.send_index, not_found, final_handler.
    rewrite Hchat. other_routes w; done.
Qed.

(** X12 at a sample input. *)
Lemma X12_witness :
  method SampleRun.ask = "POST" /\ route_matches "/api/chat" (path SampleRun.ask) = true
  /\ isArray (conversation SampleRun.ask) = true
  /\ truthy_str (env SampleRun.answering !! "OPENAI_API_KEY") = true
  /\ snd (fst (run (ServerB.app SampleRun.answering 0 SampleRun.ask) ∅))
     = [ServerB.api_chat_call SampleRun.answering SampleRun.ask].
Proof.
  apply (X12_api_chat_reaches_upstream_only_if SampleRun.answering 0 SampleRun.ask ∅).
  vm_compute. discriminate.
Defined.

(** *** Validation *)

Lemma isArray_conversation (req : Request) :
  isArray (conversation req) = true <-> has_messages req.
Proof.
  unfold has_messages, conversation. split.
  - destruct (body req) as [[| b | q | s | xs | fields]|]; cbn;
      try discriminate;
      try (destruct b; discriminate);
      try (destruct (negb _); discriminate).
    intros H. destruct (isArray_inv _ H) as [xs Hxs]. eauto.
  - intros (fields & xs & -> & Hxs). cbn. by rewrite Hxs.
Qed.

(** X13: the validation of both relays lets through exactly the bodies
    that are a JSON object with an array under [messages], an empty array
    and an array of anything included; a missing body, [null], a bare
    array, a string or an object whose [messages] is not an array get the
    400 answer, and only they do. *)
Theorem X13_validation_exactly
    (w : World) (req : Request) (table : gmap string (nat * Z)) :
  (run (ServerB.api_chat w req) table
   = (json_response 400 (error_body "messages must be an array"), [], table)
   <-> ~ has_messages req)
  /\ (ServerA.authorized w req = true ->
      (run (ServerA.chat w req) table
       = (json_response 400 (error_body "messages must be an array"), [], table)
       <-> ~ has_messages req)).
Proof.
  rewrite <- isArray_conversation. split; [|intros Hauth]; split.
  - rewrite run_api_chat. unfold ClosedB.api_chat_result.
    destruct (isArray (conversation req)); [|done]. cbn [negb].
    destruct (truthy_str (env w !! "OPENAI_API_KEY")); cbn [negb]; [|discriminate].
    destruct (upstream w (ServerB.api_chat_call w req)) as [|st [[]|]];
      try destruct ((200 <=? st) && (st <=? 299)); discriminate.
  - intros H. rewrite run_api_chat. unfold ClosedB.api_chat_result.
    by destruct (isArray (conversation req)).
  - rewrite run_chat. unfold ClosedA.chat_result, ClosedA.chat_checked_result. rewrite Hauth.
    destruct (isArray (conversation req)); [|done]. cbn [negb].
    destruct (truthy_str (env w !! "OPENAI_API_KEY")); cbn [negb]; [|discriminate].
    destruct (upstream w (ServerA.chat_call w req)) as [|st [[]|]];
      try destruct ((200 <=? st) && (st <=? 299)); discriminate.
  - intros H. rewrite run_chat. unfold ClosedA.chat_result, ClosedA.chat_checked_result.
    rewrite Hauth. by destruct (isArray (conversation req)).
Qed.

(** X13 at a sample input. *)
Lemma X13_witness :
  run (ServerB.api_chat SampleExtra.open_world
         (Sample.post "/api/chat" ∅ (Some (JArr [JStr "hi"])))) ∅
  = (json_response 400 (error_body "messages must be an array"), [], ∅)
  /\ run (ServerB.api_chat SampleExtra.open_world SampleExtra.empty_conversation) ∅
     <> (json_response 400 (error_body "messages must be an array"), [], ∅).
Proof.
  split.
  - apply (proj1 (X13_validation_exactly SampleExtra.open_world
                    (Sample.post "/api/chat" ∅ (Some (JArr [JStr "hi"]))) ∅)).
    intros (fields & xs & H & _). discriminate H.
  - intros H.
    apply (proj1 (proj1 (X13_validation_exactly SampleExtra.open_world
                           SampleExtra.empty_conversation ∅)) H).
    exists [("messages", JArr [])], []. split; reflexivity.
Defined.

(** *** Outside the relay routes *)



(** X15: the server that serves the page never sets
    [Access-Control-Allow-Origin], whatever the request and its Origin
    header: its relay can only be read by pages it serves itself. *)
Theorem X15_static_server_sets_no_cors_header
    (w : World) (now : Z) (req : Request) (table : gmap string (nat * Z)) :
  resHeaders (fst (fst (run (ServerB.app w now req) table)))
    !! "Access-Control-Allow-Origin" = None.
Proof.
  destruct (Quota.is_chat req) eqn:Hchat.
  - rewrite (appB_chat _ _ _ _ Hchat).
    destruct (ServerB.max <=? _)%nat; cbn [fst snd]; [done|].
    unfold Quota.relayed. by rewrite run_api_chat.
  - unfold Quota.is_chat in Hchat.
    unfold run, ServerB.app, ServerB.static, ServerB.routes, ServerB.root,
      ServerB.send_index, not_found, final_handler.
    rewrite Hchat. other_routes w; done.
Qed.

(** *** No failure escapes *)

(** X16: whatever the upstream does (no connection, a body that is not
    JSON, [null]) and whatever the request holds, no exception leaves
    server.js or the [/api/chat] handler, and a response is sent. *)
Theorem X16_every_request_is_answered
    (w : World) (req : Request) (s : State) :
  fst (ServerA.app w req s) = inr tt
  /\ is_Some (sent (res (snd (ServerA.app w req s))))
  /\ fst (ServerB.api_chat w req s) = inr tt
  /\ is_Some (sent (res (snd (ServerB.api_chat w req s)))).
Proof.
  rewrite appA_eval, api_chat_eval. cbn. repeat split; by eexists.
Qed.

(** *** The first choice *)

(** X17: [/api/chat] reads the first choice only: two upstream 2xx
    answers whose [choices] arrays start with the same element get the
    same response, whatever follows in the arrays and whatever else the
    bodies hold. *)
Theorem X17_only_the_first_choice_counts
    (w : World) (req : Request) (table : gmap string (nat * Z))
    (up1 up2 : FetchReq -> FetchResult) (st1 st2 : Z) (data1 data2 c : JSON)
    (rest1 rest2 : list JSON) :
  up1 (ServerB.api_chat_call w req) = Reply st1 (Some data1) ->
  up2 (ServerB.api_chat_call w req) = Reply st2 (Some data2) ->
  200 <= st1 <= 299 -> 200 <= st2 <= 299 ->
  prop data1 "choices" = Some (JArr (c :: rest1)) ->
  prop data2 "choices" = Some (JArr (c :: rest2)) ->
  run (ServerB.api_chat (with_upstream w up1) req) table
  = run (ServerB.api_chat (with_upstream w up2) req) table.
Proof.
  intros H1 H2 Hst1 Hst2 Hc1 Hc2. rewrite !run_api_chat.
  unfold ClosedB.api_chat_result.
  change (ServerB.api_chat_call (with_upstream w up1) req) with (ServerB.api_chat_call w req).
  change (ServerB.api_chat_call (with_upstream w up2) req) with (ServerB.api_chat_call w req).
  cbn [with_upstream env upstream].
  destruct (isArray (conversation req)); [|done].
  destruct (truthy_str (env w !! "OPENAI_API_KEY")); [|done]. cbn [negb].
  rewrite H1, H2, (ok_true _ Hst1), (ok_true _ Hst2).
  unfold completion. rewrite Hc1, Hc2.
  destruct data1; try discriminate Hc1. destruct data2; try discriminate Hc2. done.
Qed.

(** X17 at a sample input. *)
Lemma X17_witness :
  run (ServerB.api_chat
         (with_upstream SampleExtra.open_world
            (Sample.replies 200 (Some SampleExtra.two_choices)))
         SampleExtra.empty_conversation) ∅
  = run (ServerB.api_chat
           (with_upstream SampleExtra.open_world
              (Sample.replies 201 (Some SampleExtra.one_choice)))
           SampleExtra.empty_conversation) ∅.
Proof.
  apply (X17_only_the_first_choice_counts SampleExtra.open_world
           SampleExtra.empty_conversation ∅
           (Sample.replies 200 (Some SampleExtra.two_choices))
           (Sample.replies 201 (Some SampleExtra.one_choice))
           200 201 SampleExtra.two_choices SampleExtra.one_choice
           SampleExtra.first_choice
           [JObj [("message", JObj [("content", JStr "two")])]] []);
    [reflexivity | reflexivity | lia | lia | reflexivity | reflexivity].
Defined.

(** *** A null body from the upstream *)

(** X18: when the upstream body is the JSON value [null], [/api/chat]
    answers 500 "Server error. Please try again." whatever the upstream
    status, a 2xx included; [/chat] answers 500 "Server error" for a
    status outside 200..299 and passes [null] through with 200 otherwise. *)
Theorem X18_null_upstream_body
    (w : World) (req : Request) (table : gmap string (nat * Z)) (st : Z) :
  isArray (conversation req) = true ->
  truthy_str (env w !! "OPENAI_API_KEY") = true ->
  (upstream w (ServerB.api_chat_call w req) = Reply st (Some JNull) ->
   run (ServerB.api_chat w req) table =
     (json_response 500 (error_body "Server error. Please try again."),
      [ServerB.api_chat_call w req], table))
  /\ (ServerA.authorized w req = true ->
      upstream w (ServerA.chat_call w req) = Reply st (Some JNull) ->
      run (ServerA.chat w req) table =
        (if (200 <=? st) && (st <=? 299)
         then json_response 200 JNull
         else json_response 500 (error_body "Server error"),
         [ServerA.chat_call w req], table)).
Proof.
  intros Harr Hkey. split.
  - intros Hup. rewrite run_api_chat. unfold ClosedB.api_chat_result.
    by rewrite Harr, Hkey, Hup.
  - intros Hauth Hup. rewrite run_chat. unfold ClosedA.chat_result, ClosedA.chat_checked_result.
    rewrite Hauth, Harr, Hkey, Hup. cbn [negb].
    by destruct ((200 <=? st) && (st <=? 299)).
Qed.

(** X18 at a sample input. *)
Lemma X18_witness :
  run (ServerB.api_chat (Sample.world Sample.with_key (Sample.replies 200 (Some JNull)))
                        SampleExtra.empty_conversation) ∅ =
  (json_response 500 (error_body "Server error. Please try again."),
   [ServerB.api_chat_call (Sample.world Sample.with_key (Sample.replies 200 (Some JNull)))
                          SampleExtra.empty_conversation], ∅).
Proof.
  apply (proj1 (X18_null_upstream_body
                  (Sample.world Sample.with_key (Sample.replies 200 (Some JNull)))
                  SampleExtra.empty_conversation ∅ 200 eq_refl eq_refl)).
  reflexivity.
Defined.
